(** * The compile-cache-render pipeline of the template engine

    A shallow embedding of [render.ts] (the string entry points [render] and
    [renderAsync] with their [handleCache]) and of [lib/file-handlers.ts]
    ([loadFile], [handleCache], [tryHandleCache], [includeFile],
    [renderFile], [renderFileAsync]), followed by the properties of the
    pipeline.

    JavaScript objects are finite maps from property names to values, the
    shared template cache and the observable effects (compiler calls, disk
    reads, callback calls) live in an explicit [World] that every operation
    threads, and a thrown error is the [Throw] completion of the state and
    error monad [M]. *)

From stdpp Require Import base option list strings gmap.

Local Open Scope string_scope.

(** ** Values *)

(** The data that travels through the pipeline: primitives and plain
    objects. Functions only occur at argument positions, see [Arg]. *)
#[warnings="-register-all"]
Inductive Value :=
| VUndefined
| VNull
| VBool (b : bool)
| VStr (s : string)
| VObj (props : gmap string Value).

Abbreviation Obj := (gmap string Value).

(** A compiled template is a function value; like every JavaScript function
    it is a reference with an identity, its behaviour is given by [call]. *)
Inductive TemplateFunction := Fn (id : nat).

(** [CallbackFn]: a completion callback [(err, str) => void], by identity. *)
Definition CallbackFn := nat.

(** What arrives in the [config] position of the entry points: a value
    ([undefined], [null], an object) or a function (the callback). *)
Inductive Arg :=
| AVal (v : Value)
| AFun (cb : CallbackFn).

(** [template: string | TemplateFunction] *)
Inductive Template :=
| TSource (src : string)
| TFunction (fn : TemplateFunction).

(** Errors. [EtaErr] is the engine's own error kind; everything else that
    can be thrown (a [TypeError], a [SyntaxError] of the generated code, an
    error of a user expression) is an [OtherError] with its constructor's
    name. *)
Inductive JsError :=
| EtaErr (msg : string)
| OtherError (kind msg : string).

(** [e.message] *)
Definition message (e : JsError) : string :=
  match e with
  | EtaErr msg => msg
  | OtherError _ msg => msg
  end.

(** JavaScript truthiness, as used by [if (x)], [x || y] and [!x]. *)
Definition truthy (v : Value) : bool :=
  match v with
  | VUndefined | VNull => false
  | VBool b => b
  | VStr s => negb (String.eqb s "")
  | VObj _ => true
  end.

(** [o.k] on an object: an absent property reads as [undefined]. *)
Definition prop (o : Obj) (k : string) : Value := default VUndefined (o !! k).

(** The property key a value is converted to when it indexes the cache
    ([ToPropertyKey]); the fields used as keys are typed [string]. *)
Definition toKey (v : Value) : string :=
  match v with
  | VStr s => s
  | VUndefined => "undefined"
  | VNull => "null"
  | VBool true => "true"
  | VBool false => "false"
  | VObj _ => "[object Object]"
  end.

(** The own enumerable properties of a value, as [for ... in] with
    [hasOwnProperty], object spread and [Object.assign] see them. The
    positions where this is used are typed as objects ([DataObj],
    [PartialConfig]); [null], [undefined] and booleans have no such
    properties, and a string, which these types exclude, is given none
    here. *)
Definition ownProps (v : Value) : Obj :=
  match v with
  | VObj o => o
  | _ => ∅
  end.

(** A callback function carries no enumerable properties of its own. *)
Definition ownPropsArg (a : Arg) : Obj :=
  match a with
  | AVal v => ownProps v
  | AFun _ => ∅
  end.

Definition truthyArg (a : Arg) : bool :=
  match a with
  | AVal v => truthy v
  | AFun _ => true
  end.

(** [typeof x] *)
Definition typeof (a : Arg) : string :=
  match a with
  | AFun _ => "function"
  | AVal VUndefined => "undefined"
  | AVal VNull => "object"
  | AVal (VBool _) => "boolean"
  | AVal (VStr _) => "string"
  | AVal (VObj _) => "object"
  end.

(** The line feed of the ["\n"] escapes. *)
Definition nl : string := String (Ascii.ascii_of_nat 10) "".

(** ** The world: shared cache and observable effects *)

(** One call of a completion callback: [cb(err)] or [cb(null, str)]. *)
Record CbCall := mkCbCall {
  cb_fn : CallbackFn;
  cb_err : option JsError;
  cb_str : option Value
}.

Record World := mkWorld {
  (** the process-wide template cache, [config.templates] *)
  templates : gmap string TemplateFunction;
  (** every call of the compiler, in order: source and configuration *)
  compiled : list (string * Obj);
  (** every disk read, in order *)
  reads : list string;
  (** every callback call made, in order *)
  callbacks : list CbCall
}.

Definition set_templates (t : gmap string TemplateFunction) (w : World) : World :=
  mkWorld t (compiled w) (reads w) (callbacks w).

Definition log_compile (c : string * Obj) (w : World) : World :=
  mkWorld (templates w) (compiled w ++ [c]) (reads w) (callbacks w).

Definition log_read (p : string) (w : World) : World :=
  mkWorld (templates w) (compiled w) (reads w ++ [p]) (callbacks w).

Definition log_callback (c : CbCall) (w : World) : World :=
  mkWorld (templates w) (compiled w) (reads w) (callbacks w ++ [c]).

(** ** Completions and the state and error monad *)

Inductive Completion (A : Type) :=
| Normal (a : A)
| Throw (e : JsError).
Arguments Normal {A} a.
Arguments Throw {A} e.

Definition M (A : Type) : Type := World → Completion A * World.

Global Instance M_ret : MRet M := λ A a w, (Normal a, w).

Global Instance M_bind : MBind M := λ A B f m w,
  match m w with
  | (Normal a, w') => f a w'
  | (Throw e, w') => (Throw e, w')
  end.

(** [throw e] *)
Definition throw {A} (e : JsError) : M A := λ w, (Throw e, w).

(** [try { body } catch (err) { handler }]: the effects of the body up to
    the throw are kept. *)
Definition try_catch {A} (body : M A) (handler : JsError → M A) : M A := λ w,
  match body w with
  | (Normal a, w') => (Normal a, w')
  | (Throw e, w') => handler e w'
  end.

(** A pure, fallible external call lifted into the monad. *)
Definition lift {A} (c : Completion A) : M A := λ w, (c, w).

(** What an entry point hands back to its caller when it does not throw: a
    value returned directly, or a promise together with the settlement its
    executor gave it ([resolve(v)] or [reject(e)]; the executor of
    [new Promise] runs synchronously). *)
Inductive Settlement :=
| Resolved (v : Value)
| Rejected (e : JsError).

Inductive Returned :=
| Direct (v : Value)
| Promised (p : Settlement).

(** [new Promise((resolve, reject) => { try { resolve(body) } catch (err) { reject(err) } })] *)
Definition new_promise (body : M Value) : M Returned := λ w,
  match body w with
  | (Normal v, w') => (Normal (Promised (Resolved v)), w')
  | (Throw e, w') => (Normal (Promised (Rejected e)), w')
  end.

(** [cb(err)]: the call is recorded; a callback returns nothing. *)
Definition call_cb (cb : CallbackFn) (err : JsError) : M Returned := λ w,
  (Normal (Direct VUndefined), log_callback (mkCbCall cb (Some err) None) w).

(** ** The template cache *)

(** Modelled from the spec: the [Cacher] class behind [config.templates] is
    not among the sources; its contract is [get(key)] giving the function
    or nothing, and [define(key, fn)] overwriting unconditionally. *)
Definition templates_get (key : string) : M (option TemplateFunction) := λ w,
  (Normal (templates w !! key), w).

Definition templates_define (key : string) (fn : TemplateFunction) : M unit := λ w,
  (Normal tt, set_templates (<[key := fn]> (templates w)) w).

(** ** External collaborators *)

(** The modules the two files import and that are consumed as black boxes:
    the process-wide configuration of [config.js], the compiler, the file
    utilities, and the behaviour of compiled template functions. A template
    function receives [(data, options, cb)]; besides returning or throwing
    it may call the callback and may reach the cache through its options,
    hence it acts on the world. *)
Record Env := mkEnv {
  config : Obj;
  compile : string → Obj → Completion TemplateFunction;
  readFile : string → Completion string;
  getPath : string → Obj → Completion string;
  call : TemplateFunction → Value → Obj → option CallbackFn → M Value
}.

(** Modelled from the spec: [copyProps] of [utils.js] is not among the
    sources; it copies every property of [fromObj] onto [toObj], the copied
    ones overwriting. *)
Definition copyProps (toObj fromObj : Obj) : Obj := fromObj ∪ toObj.

(** Modelled from the spec: [getConfig] of [config.js] is not among the
    sources; it builds a fresh object from the process-wide configuration and
    then the overrides, later layers overwriting earlier ones key by key.
    The cache store is not a property that overrides can replace: it is the
    one of the process ([templates] of the world). *)
Definition getConfig (E : Env) (override : Obj) : Obj :=
  copyProps (copyProps ∅ (config E)) override.

(** Modelled from the spec: [getConfig(override, baseConfig)], the
    two-argument form that [includeFile] uses. The parent's configuration
    is laid over the process-wide one and the overrides over both, so that
    the new configuration carries the filename given in the override. *)
Definition getConfigWith (E : Env) (override baseConfig : Obj) : Obj :=
  copyProps (copyProps (copyProps ∅ (config E)) baseConfig) override.

(** [compile(template, config)], observed by the compile log. *)
Definition compileM (E : Env) (template : string) (options : Obj) : M TemplateFunction := λ w,
  (compile E template options, log_compile (template, options) w).

(** [readFile(path)], observed by the read log. *)
Definition readFileM (E : Env) (path : string) : M string := λ w,
  (readFile E path, log_read path w).

(** ** render.ts *)

Module Render.

Section WithEnv.
Context (E : Env).

(** [handleCache(template, options)] *)
Definition handleCache (template : Template) (options : Obj) : M TemplateFunction :=
  cached ←
    (if truthy (prop options "cache") && truthy (prop options "name")
     then templates_get (toKey (prop options "name"))
     else mret None);
  match cached with
  | Some func => mret func
  | None =>
    templateFunc ←
      match template with
      | TFunction fn => mret fn
      | TSource src => compileM E src options
      end;
    _ ←
      (if truthy (prop options "cache") && truthy (prop options "name")
       then templates_define (toKey (prop options "name")) templateFunc
       else mret tt);
    mret templateFunc
  end.

(** [render(template, data, config, cb)] *)
Definition render (template : Template) (data : Value) (config : Arg)
    (cb : option CallbackFn) : M Returned :=
  let options := getConfig E (if truthyArg config then ownPropsArg config else ∅) in
  if truthy (prop options "async") then
    match cb with
    | Some cb =>
      try_catch
        (templateFn ← handleCache template options;
         _ ← call E templateFn data options (Some cb);
         mret (Direct VUndefined))
        (λ err, call_cb cb err)
    | None =>
      new_promise
        (templateFn ← handleCache template options;
         call E templateFn data options None)
    end
  else
    templateFn ← handleCache template options;
    result ← call E templateFn data options None;
    mret (Direct result).

(** [renderAsync(template, data, config, cb)] *)
Definition renderAsync (template : Template) (data : Value) (config : Arg)
    (cb : option CallbackFn) : M Returned :=
  render template data
    (AVal (VObj (<["async" := VBool true]> (ownPropsArg config)))) cb.

End WithEnv.

End Render.

(** ** lib/file-handlers.ts *)

Module FileHandlers.

Section WithEnv.
Context (E : Env).

(** [!noCache] for the optional boolean argument. *)
Definition not_noCache (noCache : option bool) : bool :=
  match noCache with
  | None => true
  | Some b => negb b
  end.

(** [loadFile(filePath, options, noCache)] *)
Definition loadFile (filePath : string) (options : Obj) (noCache : option bool)
    : M TemplateFunction :=
  let config := getConfig E options in
  template ← readFileM E filePath;
  try_catch
    (compiledTemplate ← compileM E template config;
     _ ←
       (if not_noCache noCache
        then templates_define (toKey (prop config "filename")) compiledTemplate
        else mret tt);
     mret compiledTemplate)
    (λ e, throw (EtaErr ("Loading file: " ++ filePath ++ " failed:" ++ nl ++ nl ++ message e))).

(** [handleCache(options)] *)
Definition handleCache (options : Obj) : M TemplateFunction :=
  let filename := toKey (prop options "filename") in
  if truthy (prop options "cache") then
    func ← templates_get filename;
    match func with
    | Some func => mret func
    | None => loadFile filename options None
    end
  else
    loadFile filename options (Some true).

(** [tryHandleCache(data, options, cb)] *)
Definition tryHandleCache (data : Value) (options : Obj) (cb : option CallbackFn)
    : M Returned :=
  match cb with
  | Some cb =>
    try_catch
      (templateFn ← handleCache options;
       _ ← call E templateFn data options (Some cb);
       mret (Direct VUndefined))
      (λ err, call_cb cb err)
  | None =>
    new_promise
      (templateFn ← handleCache options;
       call E templateFn data options None)
  end.

(** [includeFile(path, options)]: the template function of the included
    file together with the configuration it is to be called with. *)
Definition includeFile (path : string) (options : Obj)
    : M (TemplateFunction * Obj) :=
  resolved ← lift (getPath E path options);
  let newFileOptions := getConfigWith E {[ "filename" := VStr resolved ]} options in
  templateFn ← handleCache newFileOptions;
  mret (templateFn, newFileOptions).

(** [v.k] on an arbitrary value: reading a property of [undefined] or
    [null] throws a [TypeError]; the names read in this file ([settings],
    [views], [view cache], [view options]) are no properties of a boolean
    or a string. *)
Definition getProp (v : Value) (k : string) : M Value :=
  match v with
  | VUndefined => throw (OtherError "TypeError" ("Cannot read properties of undefined (reading '" ++ k ++ "')"))
  | VNull => throw (OtherError "TypeError" ("Cannot read properties of null (reading '" ++ k ++ "')"))
  | VObj o => mret (prop o k)
  | VBool _ | VStr _ => mret VUndefined
  end.

(** [renderFile(filename, data, config, cb)] *)
Definition renderFile (filename : string) (data : Value) (config : Arg)
    (cb : option CallbackFn) : M Returned :=
  let data := if truthy data then data else VObj ∅ in
  let callback :=
    match cb with
    | Some cb => Some cb
    | None => match config with AFun f => Some f | AVal _ => None end
    end in
  renderConfig ←
    (if String.eqb (typeof config) "object" then
       mret (getConfig E (if truthyArg config then ownPropsArg config else ∅))
     else
       let renderConfig := getConfig E (ownProps data) in
       settings ← getProp data "settings";
       if truthy settings then
         views ← getProp settings "views";
         let renderConfig :=
           if truthy views then <["views" := views]> renderConfig else renderConfig in
         viewCache ← getProp settings "view cache";
         let renderConfig :=
           if truthy viewCache then <["cache" := VBool true]> renderConfig else renderConfig in
         viewOpts ← getProp settings "view options";
         mret (if truthy viewOpts then copyProps renderConfig (ownProps viewOpts)
               else renderConfig)
       else mret renderConfig);
  path ← lift (getPath E filename renderConfig);
  tryHandleCache data (<["filename" := VStr path]> renderConfig) callback.

(** [renderFileAsync(filename, data, config, cb)] *)
Definition renderFileAsync (filename : string) (data : Value) (config : Arg)
    (cb : option CallbackFn) : M Returned :=
  renderFile filename
    (if String.eqb (typeof config) "function"
     then VObj (<["async" := VBool true]> (ownProps data))
     else data)
    (if String.eqb (typeof config) "object"
     then AVal (VObj (<["async" := VBool true]> (ownPropsArg config)))
     else config)
    cb.

End WithEnv.

End FileHandlers.

(** ** Delivery styles *)

(** Following the spec's words (4.4, Invocation), for an already resolved
    Template Function: with a completion callback the function is invoked
    with the callback passed through and a synchronous throw is handed to
    the callback as [(error, undefined)]; without one the call is wrapped in
    a deferred result that resolves with the result or rejects with the
    error. *)
Definition deliver_async (E : Env) (fn : TemplateFunction) (data : Value)
    (options : Obj) (cb : option CallbackFn) : M Returned :=
  match cb with
  | Some c =>
    try_catch
      (_ ← call E fn data options (Some c); mret (Direct VUndefined))
      (λ err, call_cb c err)
  | None => new_promise (call E fn data options None)
  end.

(** Following the spec's words (4.4, Invocation): asynchronous mode off
    calls the function synchronously and returns its result directly, or
    lets the error propagate; asynchronous mode on is [deliver_async]. *)
Definition deliver (E : Env) (fn : TemplateFunction) (data : Value)
    (options : Obj) (cb : option CallbackFn) : M Returned :=
  if truthy (prop options "async") then deliver_async E fn data options cb
  else result ← call E fn data options None; mret (Direct result).

(** [config || {}] followed by [getConfig]: the options [render] works with. *)
Definition optionsOf (E : Env) (config : Arg) : Obj :=
  getConfig E (if truthyArg config then ownPropsArg config else ∅).

(** ** A concrete environment

    A small installation used to run the pipeline on examples: two good
    templates, one whose expression fails at render time, one the compiler
    rejects, and one that uses [await] and so compiles in asynchronous mode
    only; files are looked up under the [views] root of the
    configuration. *)

Definition hi_src : string := "Hi <%= it.name %>".
Definition bye_src : string := "Bye <%= it.name %>".
Definition oops_src : string := "<%= it.oops() %>".
Definition bad_src : string := "<% bad".
Definition await_src : string := "Hi <%= await it.name %>".

Definition demo_compile (src : string) (options : Obj) : Completion TemplateFunction :=
  if String.eqb src hi_src then Normal (Fn 1)
  else if String.eqb src await_src then
    if truthy (prop options "async") then Normal (Fn 1)
    else Throw (OtherError "SyntaxError"
                  "await is only valid in async functions and the top level bodies of modules")
  else if String.eqb src bye_src then Normal (Fn 2)
  else if String.eqb src oops_src then Normal (Fn 0)
  else if String.eqb src bad_src then Throw (OtherError "SyntaxError" "Unexpected end of input")
  else Normal (Fn 3).

(** The files on disk. *)
Definition demo_files : gmap string string :=
  {[ "/views/hi.eta" := hi_src;
     "/views/bad.eta" := bad_src;
     "/views/oops.eta" := oops_src;
     "/views/await.eta" := await_src;
     "/x/hi.eta" := hi_src;
     "/y/hi.eta" := bye_src ]}.

Definition demo_readFile (path : string) : Completion string :=
  match demo_files !! path with
  | Some content => Normal content
  | None => Throw (EtaErr ("Failed to read template at '" ++ path ++ "'"))
  end.

(** Paths are resolved against the [views] root and must name a file. *)
Definition demo_getPath (path : string) (options : Obj) : Completion string :=
  match prop options "views" with
  | VStr views =>
    if bool_decide (is_Some (demo_files !! (views ++ "/" ++ path)))
    then Normal (views ++ "/" ++ path)
    else Throw (EtaErr ("Could not find the template '" ++ path ++ "'"))
  | _ => Throw (EtaErr ("Could not find the template '" ++ path ++ "'"))
  end.

(** The generated functions: they greet [data.name], call the callback
    with [(null, result)] when one is passed, and leave the cache alone. *)
Definition demo_call (fn : TemplateFunction) (data : Value) (options : Obj)
    (cb : option CallbackFn) : M Value := λ w,
  let name := toKey (prop (ownProps data) "name") in
  let finish (out : string) :=
    match cb with
    | Some c => (Normal (VStr out), log_callback (mkCbCall c None (Some (VStr out))) w)
    | None => (Normal (VStr out), w)
    end in
  match fn with
  | Fn 0 => (Throw (OtherError "TypeError" "it.oops is not a function"), w)
  | Fn 1 => finish ("Hi " ++ name)
  | Fn 2 => finish ("Bye " ++ name)
  | Fn _ => finish ""
  end.

Definition demo_config : Obj :=
  {[ "async" := VBool false; "cache" := VBool false; "views" := VStr "/views" ]}.

Definition demoEnv : Env :=
  mkEnv demo_config demo_compile demo_readFile demo_getPath demo_call.

Definition emptyWorld : World := mkWorld ∅ [] [] [].

Definition ada : Value := VObj {[ "name" := VStr "Ada" ]}.


(** A call-site configuration that turns caching on under the name
    [greeting], and a world whose cache already holds that name. *)
Definition greeting_config : Arg :=
  AVal (VObj {[ "cache" := VBool true; "name" := VStr "greeting" ]}).

Definition w_hit : World := mkWorld {[ "greeting" := Fn 1 ]} [] [] [].

(** Options for the files of the concrete environment: only the filename
    is set, the rest comes from the process-wide configuration. *)
Definition hi_options : Obj := {[ "filename" := VStr "/views/hi.eta" ]}.
Definition bad_options : Obj := {[ "filename" := VStr "/views/bad.eta" ]}.

(** ** The configuration and callback [renderFile] settles on *)

(** [data || {}] *)
Definition orEmpty (data : Value) : Value :=
  if truthy data then data else VObj ∅.

(** Following the spec's words (4.4, 4.5): the callback is the fourth
    argument when it is a function, else the third when that is one. *)
Definition callbackOf (config : Arg) (cb : option CallbackFn) : option CallbackFn :=
  match cb with
  | Some c => Some c
  | None => match config with AFun f => Some f | AVal _ => None end
  end.

(** Following the spec's words (4.4): an explicitly passed configuration
    object is used alone; otherwise the configuration is read from the data
    object and then [views], ["view cache"] (forcing the cache on) and
    ["view options"] (copied wholesale) are taken from [data.settings]. *)
Definition effectiveConfig (E : Env) (data : Value) (config : Arg) : Obj :=
  if String.eqb (typeof config) "object" then
    getConfig E (if truthyArg config then ownPropsArg config else ∅)
  else
    let data := orEmpty data in
    let settings := prop (ownProps data) "settings" in
    let fromData := getConfig E (ownProps data) in
    if truthy settings then
      let views := prop (ownProps settings) "views" in
      let withViews :=
        if truthy views then <["views" := views]> fromData else fromData in
      let withCache :=
        if truthy (prop (ownProps settings) "view cache")
        then <["cache" := VBool true]> withViews else withViews in
      let viewOpts := prop (ownProps settings) "view options" in
      if truthy viewOpts then copyProps withCache (ownProps viewOpts) else withCache
    else fromData.

(** A data object carrying host-framework settings, and an explicit
    configuration naming another views root. *)
Definition settings_data : Value :=
  VObj {[ "name" := VStr "Ada";
          "settings" := VObj {[ "views" := VStr "/x" ]} ]}.

Definition explicit_views : Obj := {[ "views" := VStr "/y" ]}.

(** ** Repeated renders *)

(** The template functions of an environment are cache-neutral when a call
    of one neither registers a template nor invokes the compiler. *)
Definition cache_neutral (E : Env) : Prop :=
  ∀ fn data options cb w,
    templates (snd (call E fn data options cb w)) = templates w
    ∧ compiled (snd (call E fn data options cb w)) = compiled w.

(** The world after [n] successive calls of [render] with the same
    arguments. *)
Fixpoint render_times (E : Env) (n : nat) (template : Template) (data : Value)
    (config : Arg) (cb : option CallbackFn) (w : World) : World :=
  match n with
  | 0 => w
  | S n =>
    render_times E n template data config cb
      (snd (Render.render E template data config cb w))
  end.

(** The world after [n] successive calls of [renderFile] with the same
    arguments. *)
Fixpoint renderFile_times (E : Env) (n : nat) (filename : string) (data : Value)
    (config : Arg) (cb : option CallbackFn) (w : World) : World :=
  match n with
  | 0 => w
  | S n =>
    renderFile_times E n filename data config cb
      (snd (FileHandlers.renderFile E filename data config cb w))
  end.

(** A call-site configuration that names the template but leaves caching
    off. *)
Definition named_uncached : Arg :=
  AVal (VObj {[ "cache" := VBool false; "name" := VStr "greeting" ]}).

(** The template functions of an environment are pure towards the pipeline
    when a call of one leaves the cache, the compile log and the read log
    as they were (it may still call its callback). *)
Definition io_neutral (E : Env) : Prop :=
  ∀ fn data options cb w,
    templates (snd (call E fn data options cb w)) = templates w
    ∧ compiled (snd (call E fn data options cb w)) = compiled w
    ∧ reads (snd (call E fn data options cb w)) = reads w.


(** Options of a file render with caching on. *)
Definition cached_hi_options : Obj :=
  {[ "cache" := VBool true; "filename" := VStr "/views/hi.eta" ]}.

(** A world whose cache holds some other template only. *)
Definition w_miss : World := mkWorld {[ "farewell" := Fn 2 ]} [] [] [].

(** Caching on, but no name given. *)
Definition nameless_cached : Arg := AVal (VObj {[ "cache" := VBool true ]}).

(** The concrete environment with a disk that fails every read, although
    path resolution still finds the files. *)
Definition brokenDiskEnv : Env :=
  mkEnv demo_config demo_compile
    (λ _, Throw (EtaErr "Failed to read template")) demo_getPath demo_call.

(** An explicit configuration that only turns caching on. *)
Definition cache_on : Arg := AVal (VObj {[ "cache" := VBool true ]}).

(** [data.settings] of the defaulted data object, and the properties that
    [data.settings["view options"]] contributes (none when the settings or
    the view options are missing). *)
Definition settingsOf (data : Value) : Value :=
  prop (ownProps (orEmpty data)) "settings".

Definition viewOptionsOf (data : Value) : Obj :=
  if truthy (settingsOf data)
  then ownProps (prop (ownProps (settingsOf data)) "view options")
  else ∅.

(** Data as a host framework passes it: the data object says [cache: false]
    and [views: "/x"], its settings turn the view cache on, name ["/y"] as
    views root and carry view options. *)
Definition express_data : Value :=
  VObj {[ "name" := VStr "Ada";
          "cache" := VBool false;
          "views" := VStr "/x";
          "settings" := VObj {[ "views" := VStr "/y";
                                "view cache" := VBool true;
                                "view options" := VObj {[ "autoTrim" := VBool false ]} ]} ]}.

(** The options of a parent template that includes others. *)
Definition parent_options : Obj :=
  {[ "cache" := VBool true; "views" := VStr "/views";
     "filename" := VStr "/views/layout.eta" ]}.
(** ** Basic facts about the monad and the configuration *)

Ltac unfold_M :=
  unfold mbind, mret, M_bind, M_ret, try_catch, new_promise, throw, lift,
    templates_get, templates_define, call_cb, compileM, readFileM in *.

Lemma prop_insert_eq (o : Obj) (k : string) (v : Value) :
  prop (<[k := v]> o) k = v.
Proof. unfold prop. by rewrite lookup_insert_eq. Qed.

Lemma prop_insert_ne (o : Obj) (k k' : string) (v : Value) :
  k ≠ k' → prop (<[k := v]> o) k' = prop o k'.
Proof. intros Hne. unfold prop. by rewrite lookup_insert_ne. Qed.

(** An override present in the call-site object wins over the process-wide
    configuration. *)
Lemma getConfig_override (E : Env) (override : Obj) (k : string) (v : Value) :
  override !! k = Some v → prop (getConfig E override) k = v.
Proof.
  intros Hk. unfold prop, getConfig, copyProps.
  by rewrite (lookup_union_Some_l _ _ _ _ Hk).
Qed.

(** A key the call site does not set comes from the process-wide
    configuration. *)
Lemma getConfig_default (E : Env) (override : Obj) (k : string) :
  override !! k = None → prop (getConfig E override) k = prop (config E) k.
Proof.
  intros Hk. unfold prop, getConfig, copyProps.
  rewrite lookup_union_r by done. rewrite lookup_union_l by apply lookup_empty.
  done.
Qed.

Example demo_hi :
  Render.render demoEnv (TSource hi_src) ada (AVal (VObj ∅)) None emptyWorld
  = (Normal (Direct (VStr "Hi Ada")),
     mkWorld ∅ [(hi_src, demo_config)] [] []).
Proof. vm_compute. reflexivity. Qed.

(** ** Cache hits *)

Lemma render_handleCache_hit (E : Env) (template : Template) (options : Obj)
    (w : World) (func : TemplateFunction) :
  truthy (prop options "cache") = true →
  truthy (prop options "name") = true →
  templates w !! toKey (prop options "name") = Some func →
  Render.handleCache E template options w = (Normal func, w).
Proof.
  intros Hcache Hname Hreg. unfold Render.handleCache.
  rewrite Hcache, Hname. unfold_M. simpl. by rewrite Hreg.
Qed.

Lemma file_handleCache_hit (E : Env) (options : Obj) (w : World)
    (func : TemplateFunction) :
  truthy (prop options "cache") = true →
  templates w !! toKey (prop options "filename") = Some func →
  FileHandlers.handleCache E options w = (Normal func, w).
Proof.
  intros Hcache Hreg. unfold FileHandlers.handleCache.
  rewrite Hcache. unfold_M. by rewrite Hreg.
Qed.

(** Once [handleCache] is known to give [func] without touching the world,
    [render] is the delivery of [func]. *)
Lemma render_of_handleCache (E : Env) (template : Template) (data : Value)
    (config : Arg) (cb : option CallbackFn) (w w' : World) (func : TemplateFunction) :
  Render.handleCache E template (optionsOf E config) w = (Normal func, w') →
  Render.render E template data config cb w
  = deliver E func data (optionsOf E config) cb w'.
Proof.
  intros Hh. unfold Render.render, deliver, deliver_async.
  fold (optionsOf E config).
  destruct (truthy (prop (optionsOf E config) "async")); [destruct cb |];
    unfold_M; rewrite Hh; reflexivity.
Qed.

Lemma tryHandleCache_of_handleCache (E : Env) (data : Value) (options : Obj)
    (cb : option CallbackFn) (w w' : World) (func : TemplateFunction) :
  FileHandlers.handleCache E options w = (Normal func, w') →
  FileHandlers.tryHandleCache E data options cb w
  = deliver_async E func data options cb w'.
Proof.
  intros Hh. unfold FileHandlers.tryHandleCache, deliver_async.
  destruct cb; unfold_M; rewrite Hh; reflexivity.
Qed.

(** A miss on a string template with caching on: the source is compiled and
    the function registered under the name before it is returned. *)
Lemma render_handleCache_miss (E : Env) (src : string) (options : Obj)
    (w : World) (fn : TemplateFunction) :
  truthy (prop options "cache") = true →
  truthy (prop options "name") = true →
  templates w !! toKey (prop options "name") = None →
  compile E src options = Normal fn →
  Render.handleCache E (TSource src) options w
  = (Normal fn,
     set_templates (<[toKey (prop options "name") := fn]> (templates w))
       (log_compile (src, options) w)).
Proof.
  intros Hcache Hname Hreg Hc. unfold Render.handleCache.
  rewrite Hcache, Hname. unfold_M. simpl. rewrite Hreg, Hc. reflexivity.
Qed.

(** C1. With caching enabled and a key (the name of a string template, the
    filename of a file template) that is registered in the template cache,
    [handleCache] returns the cached Template Function and leaves the world
    as it is: nothing is compiled, read or registered, whatever template
    source and other options are supplied. Hence a render under that key is
    the delivery of the cached function, and of two successive renders
    under one key with different sources both are deliveries of the
    function compiled on the first call, provided that function did not
    itself drop its registration. *)
Theorem cache_hit_wins (E : Env) (key : string) (func : TemplateFunction)
    (w : World) (Hreg : templates w !! key = Some func) :
  (∀ template options,
      truthy (prop options "cache") = true →
      truthy (prop options "name") = true →
      toKey (prop options "name") = key →
      Render.handleCache E template options w = (Normal func, w))
  ∧ (∀ options,
      truthy (prop options "cache") = true →
      toKey (prop options "filename") = key →
      FileHandlers.handleCache E options w = (Normal func, w))
  ∧ (∀ template data config cb,
      truthy (prop (optionsOf E config) "cache") = true →
      truthy (prop (optionsOf E config) "name") = true →
      toKey (prop (optionsOf E config) "name") = key →
      Render.render E template data config cb w
      = deliver E func data (optionsOf E config) cb w)
  ∧ (∀ data options cb,
      truthy (prop options "cache") = true →
      toKey (prop options "filename") = key →
      FileHandlers.tryHandleCache E data options cb w
      = deliver_async E func data options cb w)
  ∧ (∀ src1 src2 data1 data2 config1 config2 cb1 cb2 w0 w1 r1 f1,
      truthy (prop (optionsOf E config1) "cache") = true →
      truthy (prop (optionsOf E config1) "name") = true →
      toKey (prop (optionsOf E config1) "name") = key →
      truthy (prop (optionsOf E config2) "cache") = true →
      truthy (prop (optionsOf E config2) "name") = true →
      toKey (prop (optionsOf E config2) "name") = key →
      templates w0 !! key = None →
      compile E src1 (optionsOf E config1) = Normal f1 →
      Render.render E (TSource src1) data1 config1 cb1 w0 = (r1, w1) →
      templates w1 !! key = Some f1 →
      (r1, w1) = deliver E f1 data1 (optionsOf E config1) cb1
                   (set_templates (<[key := f1]> (templates w0))
                      (log_compile (src1, optionsOf E config1) w0))
      ∧ Render.render E (TSource src2) data2 config2 cb2 w1
        = deliver E f1 data2 (optionsOf E config2) cb2 w1).
Proof.
  split; [| split; [| split; [| split]]].
  - intros template options Hc Hn Hk. subst key.
    by apply render_handleCache_hit.
  - intros options Hc Hk. subst key. by apply file_handleCache_hit.
  - intros template data config cb Hc Hn Hk. subst key.
    apply render_of_handleCache. by apply render_handleCache_hit.
  - intros data options cb Hc Hk. subst key.
    apply tryHandleCache_of_handleCache. by apply file_handleCache_hit.
  - intros src1 src2 data1 data2 config1 config2 cb1 cb2 w0 w1 r1 f1
      Hc1 Hn1 Hk1 Hc2 Hn2 Hk2 Hfree Hcomp Hrun Hkept.
    subst key. split.
    + rewrite <- Hrun. apply render_of_handleCache.
      by apply render_handleCache_miss.
    + apply render_of_handleCache. apply render_handleCache_hit; [done | done |].
      by rewrite Hk2.
Qed.

Lemma cache_hit_wins_witness :
  templates w_hit !! "greeting" = Some (Fn 1)
  ∧ Render.render demoEnv (TSource bye_src) ada greeting_config None w_hit
    = (Normal (Direct (VStr "Hi Ada")), w_hit)
  ∧ FileHandlers.handleCache demoEnv
      {[ "cache" := VBool true; "filename" := VStr "greeting" ]} w_hit
    = (Normal (Fn 1), w_hit)
  ∧ (let first := Render.render demoEnv (TSource hi_src) ada greeting_config None emptyWorld in
     fst (Render.render demoEnv (TSource bye_src) ada greeting_config None (snd first))
     = Normal (Direct (VStr "Hi Ada"))).
Proof.
  assert (Hreg : templates w_hit !! "greeting" = Some (Fn 1)) by reflexivity.
  destruct (cache_hit_wins demoEnv "greeting" (Fn 1) w_hit Hreg)
    as (_ & Hfile & Hrender & _ & Htwice).
  split; [exact Hreg |]. split; [| split].
  - rewrite Hrender by reflexivity. vm_compute. reflexivity.
  - apply Hfile; reflexivity.
  - intros first.
    destruct (Htwice hi_src bye_src ada ada greeting_config greeting_config
                None None emptyWorld (snd first) (fst first) (Fn 1)
                eq_refl eq_refl eq_refl eq_refl eq_refl eq_refl
                eq_refl eq_refl eq_refl eq_refl) as [_ Hsecond].
    rewrite Hsecond. vm_compute. reflexivity.
Defined.

(** ** The file loader *)

(** The three ways [loadFile] can end: the read fails (outside the [try],
    so the error passes unchanged), the compiler fails (the error is
    wrapped), or the function is compiled and, unless [noCache] is set,
    registered. *)
Lemma loadFile_unfold (E : Env) (filePath : string) (options : Obj)
    (noCache : option bool) (w : World) :
  FileHandlers.loadFile E filePath options noCache w
  = match readFile E filePath with
    | Throw e => (Throw e, log_read filePath w)
    | Normal src =>
      let cfg := getConfig E options in
      let w1 := log_compile (src, cfg) (log_read filePath w) in
      match compile E src cfg with
      | Throw e =>
        (Throw (EtaErr ("Loading file: " ++ filePath ++ " failed:" ++ nl ++ nl ++ message e)), w1)
      | Normal fn =>
        (Normal fn,
         if FileHandlers.not_noCache noCache
         then set_templates (<[toKey (prop cfg "filename") := fn]> (templates w1)) w1
         else w1)
      end
    end.
Proof.
  unfold FileHandlers.loadFile. unfold_M.
  destruct (readFile E filePath) as [src | e]; [| reflexivity].
  simpl. destruct (compile E src (getConfig E options)) as [fn | e]; [| reflexivity].
  destruct (FileHandlers.not_noCache noCache); reflexivity.
Qed.

(** C8. When the compiler fails inside [loadFile], the error that
    [loadFile] throws is the engine's own error kind and its message is
    "Loading file: <path> failed:", two line feeds, and the message of
    the underlying failure. *)
Theorem loadFile_wraps_compile_error (E : Env) (filePath : string)
    (options : Obj) (noCache : option bool) (w : World) (src : string)
    (cause : JsError)
    (Hread : readFile E filePath = Normal src)
    (Hfail : compile E src (getConfig E options) = Throw cause) :
  fst (FileHandlers.loadFile E filePath options noCache w)
  = Throw (EtaErr ("Loading file: " ++ filePath ++ " failed:" ++ nl ++ nl ++ message cause)).
Proof. rewrite loadFile_unfold, Hread. simpl. by rewrite Hfail. Qed.

Lemma loadFile_wraps_compile_error_witness :
  readFile demoEnv "/views/bad.eta" = Normal bad_src
  ∧ compile demoEnv bad_src (getConfig demoEnv bad_options)
    = Throw (OtherError "SyntaxError" "Unexpected end of input")
  ∧ fst (FileHandlers.loadFile demoEnv "/views/bad.eta" bad_options None emptyWorld)
    = Throw (EtaErr ("Loading file: /views/bad.eta failed:" ++ nl ++ nl
                     ++ "Unexpected end of input")).
Proof.
  split; [reflexivity |]. split; [reflexivity |].
  apply (loadFile_wraps_compile_error demoEnv "/views/bad.eta" bad_options None
           emptyWorld bad_src (OtherError "SyntaxError" "Unexpected end of input"));
    reflexivity.
Defined.

(** C3, as the claim states it, fails: with caching disabled in the
    effective configuration and no [noCache] argument, [loadFile] still
    registers the compiled function. *)
Lemma loadFile_registers_with_cache_off :
  truthy (prop (getConfig demoEnv hi_options) "cache") = false
  ∧ FileHandlers.not_noCache None = true
  ∧ templates emptyWorld !! "/views/hi.eta" = None
  ∧ templates (snd (FileHandlers.loadFile demoEnv "/views/hi.eta" hi_options None emptyWorld))
      !! "/views/hi.eta" = Some (Fn 1).
Proof. repeat split; vm_compute; reflexivity. Qed.

(** C3, amended. [loadFile] registers the compiled Template Function under
    the filename of the effective configuration, before returning it,
    exactly when its [noCache] argument is false or absent; the cache flag
    of the configuration plays no part. *)
Theorem loadFile_registers_unless_noCache (E : Env) (filePath : string)
    (options : Obj) (noCache : option bool) (w : World) (src : string)
    (fn : TemplateFunction)
    (Hread : readFile E filePath = Normal src)
    (Hcomp : compile E src (getConfig E options) = Normal fn) :
  fst (FileHandlers.loadFile E filePath options noCache w) = Normal fn
  ∧ templates (snd (FileHandlers.loadFile E filePath options noCache w))
    = if FileHandlers.not_noCache noCache
      then <[toKey (prop (getConfig E options) "filename") := fn]> (templates w)
      else templates w.
Proof.
  rewrite loadFile_unfold, Hread. simpl. rewrite Hcomp.
  split; [reflexivity |]. by destruct (FileHandlers.not_noCache noCache).
Qed.

Lemma loadFile_registers_unless_noCache_witness :
  readFile demoEnv "/views/hi.eta" = Normal hi_src
  ∧ compile demoEnv hi_src (getConfig demoEnv hi_options) = Normal (Fn 1)
  ∧ templates (snd (FileHandlers.loadFile demoEnv "/views/hi.eta" hi_options (Some true) emptyWorld))
    = ∅
  ∧ templates (snd (FileHandlers.loadFile demoEnv "/views/hi.eta" hi_options (Some false) emptyWorld))
    = {[ "/views/hi.eta" := Fn 1 ]}.
Proof.
  split; [reflexivity |]. split; [reflexivity |]. split.
  - rewrite (proj2 (loadFile_registers_unless_noCache demoEnv "/views/hi.eta"
                      hi_options (Some true) emptyWorld hi_src (Fn 1) eq_refl eq_refl)).
    reflexivity.
  - rewrite (proj2 (loadFile_registers_unless_noCache demoEnv "/views/hi.eta"
                      hi_options (Some false) emptyWorld hi_src (Fn 1) eq_refl eq_refl)).
    vm_compute. reflexivity.
Defined.

(** A failed [loadFile] leaves the cache as it was. *)
Lemma loadFile_failure_registers_nothing (E : Env) (filePath : string)
    (options : Obj) (noCache : option bool) (w w' : World) (e : JsError) :
  FileHandlers.loadFile E filePath options noCache w = (Throw e, w') →
  templates w' = templates w.
Proof.
  rewrite loadFile_unfold.
  destruct (readFile E filePath) as [src | e1]; simpl.
  - destruct (compile E src (getConfig E options)) as [fn | e2]; [done |].
    by intros [= _ <-].
  - by intros [= _ <-].
Qed.

(** ** Configuration resolution in [renderFile] *)

Lemma truthy_orEmpty (data : Value) : truthy (orEmpty data) = true.
Proof. unfold orEmpty. by destruct (truthy data) eqn:Ht. Qed.

Lemma orEmpty_absent (data : Value) :
  truthy data = false → orEmpty data = VObj ∅.
Proof. intros Ht. unfold orEmpty. by rewrite Ht. Qed.

(** Reading a property of a truthy value never throws. *)
Lemma getProp_truthy (v : Value) (k : string) (w : World) :
  truthy v = true →
  FileHandlers.getProp v k w = (Normal (prop (ownProps v) k), w).
Proof.
  destruct v; simpl; intros Ht; try discriminate; try reflexivity.
Qed.

(** [renderFile] is: resolve the configuration, resolve the path against
    it (outside every [try]), then [tryHandleCache]. *)
Lemma renderFile_unfold (E : Env) (filename : string) (data : Value)
    (config : Arg) (cb : option CallbackFn) (w : World) :
  FileHandlers.renderFile E filename data config cb w
  = match getPath E filename (effectiveConfig E data config) with
    | Throw e => (Throw e, w)
    | Normal path =>
      FileHandlers.tryHandleCache E (orEmpty data)
        (<["filename" := VStr path]> (effectiveConfig E data config))
        (callbackOf config cb) w
    end.
Proof.
  unfold FileHandlers.renderFile, effectiveConfig.
  fold (orEmpty data). fold (callbackOf config cb).
  destruct (String.eqb (typeof config) "object").
  - unfold_M. by destruct (getPath E filename _).
  - pose proof (truthy_orEmpty data) as Hd.
    unfold mbind at 1, M_bind at 1. unfold mbind at 1, M_bind at 1.
    rewrite (getProp_truthy _ "settings" w Hd).
    destruct (truthy (prop (ownProps (orEmpty data)) "settings")) eqn:Hs.
    + unfold mbind at 1, M_bind at 1. rewrite (getProp_truthy _ "views" w Hs).
      unfold mbind at 1, M_bind at 1. rewrite (getProp_truthy _ "view cache" w Hs).
      unfold mbind at 1, M_bind at 1. rewrite (getProp_truthy _ "view options" w Hs).
      unfold_M. by destruct (getPath E filename _).
    + unfold_M. by destruct (getPath E filename _).
Qed.

(** ** Delivery of results and errors *)

(** [tryHandleCache] never throws: its whole body sits in a [try] or in a
    promise executor. *)
Lemma tryHandleCache_returns (E : Env) (data : Value) (options : Obj)
    (cb : option CallbackFn) (w : World) :
  ∃ r w', FileHandlers.tryHandleCache E data options cb w = (Normal r, w').
Proof.
  unfold FileHandlers.tryHandleCache. destruct cb as [c |]; unfold_M.
  - destruct (FileHandlers.handleCache E options w) as [[fn | e] w1]; [| by eauto].
    destruct (call E fn data options (Some c) w1) as [[v | e] w2]; by eauto.
  - destruct (FileHandlers.handleCache E options w) as [[fn | e] w1]; [| by eauto].
    destruct (call E fn data options None w1) as [[v | e] w2]; by eauto.
Qed.

(** An error of the fetch-compile-cache step or of the invocation reaches
    the callback, or rejects the promise. *)
Lemma tryHandleCache_error (E : Env) (data : Value) (options : Obj)
    (cb : option CallbackFn) (w w1 : World) (e : JsError) :
  (fn ← FileHandlers.handleCache E options; call E fn data options cb) w = (Throw e, w1) →
  FileHandlers.tryHandleCache E data options cb w
  = match cb with
    | Some c => (Normal (Direct VUndefined), log_callback (mkCbCall c (Some e) None) w1)
    | None => (Normal (Promised (Rejected e)), w1)
    end.
Proof.
  unfold FileHandlers.tryHandleCache. destruct cb as [c |]; unfold_M.
  - destruct (FileHandlers.handleCache E options w) as [[fn | e0] w0].
    + destruct (call E fn data options (Some c) w0) as [[v | e1] w2]; [done |].
      by intros [= -> ->].
    + by intros [= -> ->].
  - destruct (FileHandlers.handleCache E options w) as [[fn | e0] w0].
    + destruct (call E fn data options None w0) as [[v | e1] w2]; [done |].
      by intros [= -> ->].
    + by intros [= -> ->].
Qed.

(** Without an error the callback style returns [undefined] and leaves
    calling the callback to the template function; the promise style
    resolves with the function's result. *)
Lemma tryHandleCache_success (E : Env) (data : Value) (options : Obj)
    (cb : option CallbackFn) (w w1 : World) (v : Value) :
  (fn ← FileHandlers.handleCache E options; call E fn data options cb) w = (Normal v, w1) →
  FileHandlers.tryHandleCache E data options cb w
  = match cb with
    | Some c => (Normal (Direct VUndefined), w1)
    | None => (Normal (Promised (Resolved v)), w1)
    end.
Proof.
  unfold FileHandlers.tryHandleCache. destruct cb as [c |]; unfold_M.
  - destruct (FileHandlers.handleCache E options w) as [[fn | e0] w0]; [| done].
    destruct (call E fn data options (Some c) w0) as [[v1 | e1] w2]; [| done].
    by intros [= -> ->].
  - destruct (FileHandlers.handleCache E options w) as [[fn | e0] w0]; [| done].
    destruct (call E fn data options None w0) as [[v1 | e1] w2]; [| done].
    by intros [= -> ->].
Qed.

(** [renderFile] throws exactly the errors of path resolution. *)
Lemma renderFile_throws_iff (E : Env) (filename : string) (data : Value)
    (config : Arg) (cb : option CallbackFn) (w : World) (e : JsError) :
  fst (FileHandlers.renderFile E filename data config cb w) = Throw e
  ↔ getPath E filename (effectiveConfig E data config) = Throw e.
Proof.
  rewrite renderFile_unfold.
  destruct (getPath E filename (effectiveConfig E data config)) as [path | e0].
  - destruct (tryHandleCache_returns E (orEmpty data)
                (<["filename" := VStr path]> (effectiveConfig E data config))
                (callbackOf config cb) w) as (r & w' & ->).
    simpl. split; discriminate.
  - simpl. split; by intros [= ->].
Qed.




(** ** Explicit configuration, absent data, synchronous mode *)

(** C6. When [renderFile] is passed an explicit configuration object,
    the effective configuration is built from that object alone: nothing
    of [data.settings] ([views], ["view cache"], ["view options"]) enters
    it, and every option the object sets keeps its value. With
    [data = {settings: {views: "/x"}}] and [config = {views: "/y"}] the
    views root is ["/y"]. *)
Theorem explicit_config_wins (E : Env) (filename : string) (data : Value)
    (c : Obj) (cb : option CallbackFn) (w : World) :
  FileHandlers.renderFile E filename data (AVal (VObj c)) cb w
  = match getPath E filename (getConfig E c) with
    | Throw e => (Throw e, w)
    | Normal path =>
      FileHandlers.tryHandleCache E (orEmpty data)
        (<["filename" := VStr path]> (getConfig E c)) cb w
    end
  ∧ effectiveConfig E data (AVal (VObj c)) = getConfig E c
  ∧ (∀ k v, c !! k = Some v → prop (effectiveConfig E data (AVal (VObj c))) k = v)
  ∧ prop (effectiveConfig E settings_data (AVal (VObj explicit_views))) "views" = VStr "/y".
Proof.
  assert (Heff : ∀ d, effectiveConfig E d (AVal (VObj c)) = getConfig E c) by done.
  split; [| split; [| split]].
  - rewrite renderFile_unfold, Heff. by destruct cb.
  - apply Heff.
  - intros k v Hk. rewrite Heff. by apply getConfig_override.
  - by apply getConfig_override.
Qed.

Lemma explicit_config_wins_witness :
  explicit_views !! "views" = Some (VStr "/y")
  ∧ prop (effectiveConfig demoEnv settings_data (AVal (VObj explicit_views))) "views"
    = VStr "/y"
  ∧ fst (FileHandlers.renderFile demoEnv "hi.eta" settings_data
           (AVal (VObj explicit_views)) None emptyWorld)
    = Normal (Promised (Resolved (VStr "Bye Ada"))).
Proof.
  destruct (explicit_config_wins demoEnv "hi.eta" settings_data explicit_views
              None emptyWorld) as (Hrun & _ & Hkeep & _).
  split; [reflexivity |]. split.
  - apply Hkeep. reflexivity.
  - rewrite Hrun. vm_compute. reflexivity.
Defined.

(** Without an explicit configuration the settings of the data object do
    count: the same call resolves the file under ["/x"]. *)
Example settings_views_used :
  prop (effectiveConfig demoEnv settings_data (AVal VUndefined)) "views" = VStr "/x"
  ∧ fst (FileHandlers.renderFile demoEnv "hi.eta" settings_data (AVal VUndefined)
           None emptyWorld)
    = Normal (Promised (Resolved (VStr "Hi Ada"))).
Proof. split; vm_compute; reflexivity. Qed.

(** C9. When the data argument of [renderFile] is absent ([undefined] or
    [null]) it is replaced by the empty object before any property is
    read: reading [data.settings] succeeds, the call behaves as the call
    with [{}], and the only errors [renderFile] can throw are those of path
    resolution. *)
Theorem absent_data_defaults_to_empty (E : Env) (filename : string)
    (data : Value) (config : Arg) (cb : option CallbackFn) (w : World)
    (Habsent : data = VUndefined ∨ data = VNull) :
  orEmpty data = VObj ∅
  ∧ FileHandlers.getProp (orEmpty data) "settings" w = (Normal VUndefined, w)
  ∧ FileHandlers.renderFile E filename data config cb w
    = FileHandlers.renderFile E filename (VObj ∅) config cb w
  ∧ (∀ e, fst (FileHandlers.renderFile E filename data config cb w) = Throw e →
          getPath E filename (effectiveConfig E (VObj ∅) config) = Throw e).
Proof.
  assert (Hd : orEmpty data = VObj ∅) by (by destruct Habsent as [-> | ->]).
  assert (Heff : effectiveConfig E data config = effectiveConfig E (VObj ∅) config).
  { unfold effectiveConfig. by rewrite Hd. }
  split; [exact Hd |]. split; [| split].
  - by rewrite Hd.
  - rewrite !renderFile_unfold, Heff, Hd. reflexivity.
  - intros e He. rewrite <- Heff. by apply renderFile_throws_iff in He.
Qed.

Lemma absent_data_defaults_to_empty_witness :
  (VUndefined = VUndefined ∨ VUndefined = VNull)
  ∧ FileHandlers.renderFile demoEnv "hi.eta" VUndefined (AVal VUndefined) None emptyWorld
    = FileHandlers.renderFile demoEnv "hi.eta" (VObj ∅) (AVal VUndefined) None emptyWorld
  ∧ fst (FileHandlers.renderFile demoEnv "hi.eta" VUndefined (AVal VUndefined) None emptyWorld)
    = Normal (Promised (Resolved (VStr "Hi undefined"))).
Proof.
  destruct (absent_data_defaults_to_empty demoEnv "hi.eta" VUndefined (AVal VUndefined)
              None emptyWorld (or_introl eq_refl)) as (_ & _ & Hsame & _).
  split; [by left |]. split; [exact Hsame |].
  rewrite Hsame. vm_compute. reflexivity.
Defined.

(** Reading [settings] off the defaulted data never throws, whatever the
    data argument was. *)
Lemma data_settings_never_throws (data : Value) (w : World) :
  ∃ v, FileHandlers.getProp (orEmpty data) "settings" w = (Normal v, w).
Proof. eexists. apply getProp_truthy, truthy_orEmpty. Qed.

(** Without the default the read would throw. *)
Example settings_of_undefined_throws :
  ∃ e, FileHandlers.getProp VUndefined "settings" emptyWorld = (Throw e, emptyWorld).
Proof. eexists. reflexivity. Qed.

(** C4, as the claim states it, fails for the file entry point: with
    asynchronous mode off and no callback, [renderFile] hands back a
    promise, not the string. *)
Lemma renderFile_sync_mode_returns_promise :
  truthy (prop (effectiveConfig demoEnv ada (AVal VUndefined)) "async") = false
  ∧ fst (FileHandlers.renderFile demoEnv "hi.eta" ada (AVal VUndefined) None emptyWorld)
    = Normal (Promised (Resolved (VStr "Hi Ada")))
  ∧ fst (FileHandlers.renderFile demoEnv "hi.eta" ada (AVal VUndefined) None emptyWorld)
    ≠ Normal (Direct (VStr "Hi Ada")).
Proof. repeat split; vm_compute; (reflexivity || discriminate). Qed.

(** C4, amended. With asynchronous mode off, [render] (the string entry
    point) calls the Template Function synchronously and returns its result
    directly, and an error of the fetch or of the call is thrown to the
    caller; no promise is made and the callback is not used. [renderFile]
    has no such mode: without a callback it returns a promise whatever the
    asynchronous flag says. *)
Theorem sync_render_returns_directly (E : Env) (template : Template)
    (data : Value) (config : Arg) (cb : option CallbackFn) (w : World)
    (Hsync : truthy (prop (optionsOf E config) "async") = false) :
  (match (fn ← Render.handleCache E template (optionsOf E config);
          call E fn data (optionsOf E config) None) w with
   | (Normal result, w') =>
     Render.render E template data config cb w = (Normal (Direct result), w')
   | (Throw e, w') =>
     Render.render E template data config cb w = (Throw e, w')
   end)
  ∧ (∀ filename fdata fconfig r w',
       callbackOf fconfig None = None →
       FileHandlers.renderFile E filename fdata fconfig None w = (Normal r, w') →
       ∃ settled, r = Promised settled).
Proof.
  split.
  - unfold Render.render. fold (optionsOf E config). rewrite Hsync. unfold_M.
    destruct (Render.handleCache E template (optionsOf E config) w) as [[fn | e] w1];
      [| reflexivity].
    by destruct (call E fn data (optionsOf E config) None w1) as [[v | e] w2].
  - intros filename fdata fconfig r w' Hcb. rewrite renderFile_unfold, Hcb.
    destruct (getPath E filename (effectiveConfig E fdata fconfig)) as [path | e];
      [| done].
    unfold FileHandlers.tryHandleCache, new_promise.
    destruct ((fn ← FileHandlers.handleCache E _; call E fn _ _ None) w)
      as [[v | e] w1]; intros [= <- _]; by eauto.
Qed.

Lemma sync_render_returns_directly_witness :
  truthy (prop (optionsOf demoEnv (AVal VUndefined)) "async") = false
  ∧ Render.render demoEnv (TSource hi_src) ada (AVal VUndefined) (Some 7) emptyWorld
    = (Normal (Direct (VStr "Hi Ada")),
       mkWorld ∅ [(hi_src, demo_config)] [] [])
  ∧ fst (Render.render demoEnv (TSource oops_src) ada (AVal VUndefined) None emptyWorld)
    = Throw (OtherError "TypeError" "it.oops is not a function").
Proof.
  split; [reflexivity |]. split.
  - exact (proj1 (sync_render_returns_directly demoEnv (TSource hi_src) ada
                    (AVal VUndefined) (Some 7) emptyWorld eq_refl)).
  - pose proof (proj1 (sync_render_returns_directly demoEnv (TSource oops_src) ada
                         (AVal VUndefined) None emptyWorld eq_refl)) as Hrun.
    by rewrite Hrun.
Defined.

(** ** Caching disabled *)

Lemma render_handleCache_disabled (E : Env) (src : string) (options : Obj)
    (w : World) :
  truthy (prop options "cache") = false →
  Render.handleCache E (TSource src) options w
  = (compile E src options, log_compile (src, options) w).
Proof.
  intros Hc. unfold Render.handleCache. rewrite Hc. simpl. unfold_M.
  by destruct (compile E src options).
Qed.

Lemma file_handleCache_disabled (E : Env) (options : Obj) (w : World) :
  truthy (prop options "cache") = false →
  FileHandlers.handleCache E options w
  = FileHandlers.loadFile E (toKey (prop options "filename")) options (Some true) w.
Proof. intros Hc. unfold FileHandlers.handleCache. by rewrite Hc. Qed.

(** One [render] of a source with caching off: one more compilation, the
    cache untouched. *)
Lemma render_once_disabled (E : Env) (src : string) (data : Value)
    (config : Arg) (cb : option CallbackFn) (w : World) :
  cache_neutral E →
  truthy (prop (optionsOf E config) "cache") = false →
  let w' := snd (Render.render E (TSource src) data config cb w) in
  templates w' = templates w
  ∧ compiled w' = (compiled w ++ [(src, optionsOf E config)])%list.
Proof.
  intros Hneutral Hc. unfold Render.render. fold (optionsOf E config).
  destruct (truthy (prop (optionsOf E config) "async")); [destruct cb as [c |] |];
    unfold_M; rewrite (render_handleCache_disabled _ _ _ _ Hc);
    (destruct (compile E src (optionsOf E config)) as [fn | e]; [| by simpl]);
    match goal with
    | |- context [call E fn data ?o ?k ?w0] =>
      destruct (Hneutral fn data o k w0) as [Ht Hl];
      destruct (call E fn data o k w0) as [[v | e] w2]
    end; simpl in *; by rewrite ?Ht, ?Hl.
Qed.

(** One [renderFile] of a readable file with caching off: likewise. *)
Lemma renderFile_once_disabled (E : Env) (filename : string) (data : Value)
    (config : Arg) (cb : option CallbackFn) (w : World) (path src : string) :
  cache_neutral E →
  truthy (prop (effectiveConfig E data config) "cache") = false →
  getPath E filename (effectiveConfig E data config) = Normal path →
  readFile E path = Normal src →
  let options := <["filename" := VStr path]> (effectiveConfig E data config) in
  let w' := snd (FileHandlers.renderFile E filename data config cb w) in
  templates w' = templates w
  ∧ compiled w' = (compiled w ++ [(src, getConfig E options)])%list.
Proof.
  intros Hneutral Hc Hpath Hread options. rewrite renderFile_unfold, Hpath.
  assert (Hc' : truthy (prop options "cache") = false).
  { unfold options. by rewrite prop_insert_ne. }
  assert (Hkey : toKey (prop options "filename") = path).
  { unfold options. by rewrite prop_insert_eq. }
  unfold FileHandlers.tryHandleCache.
  destruct (callbackOf config cb) as [c |]; unfold_M;
    rewrite (file_handleCache_disabled _ _ _ Hc'), loadFile_unfold, Hkey, Hread;
    simpl;
    (destruct (compile E src (getConfig E options)) as [fn | e]; [| by simpl]);
    simpl;
    match goal with
    | |- context [call E fn ?d ?o ?k ?w0] =>
      destruct (Hneutral fn d o k w0) as [Ht Hl];
      destruct (call E fn d o k w0) as [[v | e] w2]
    end; simpl in *; by rewrite ?Ht, ?Hl.
Qed.

(** The generated functions of the concrete environment are
    cache-neutral. *)
Lemma demo_cache_neutral : cache_neutral demoEnv.
Proof.
  intros [[| [| [| n]]]] data options [c |] w; split; reflexivity.
Qed.

(** C7. With caching disabled, each render compiles afresh and registers
    nothing, whether or not a name or filename is present and whether or
    not the cache holds it: [handleCache] on a template source calls the
    compiler once and leaves the cache alone, [handleCache] on a readable
    file reads it, compiles it once and leaves the cache alone, and [n]
    renders of the same template (whose functions are cache-neutral) add
    exactly [n] compilations and leave the cache as it was. *)
Theorem caching_disabled_compiles_fresh (E : Env) :
  (∀ src options w,
      truthy (prop options "cache") = false →
      Render.handleCache E (TSource src) options w
      = (compile E src options, log_compile (src, options) w))
  ∧ (∀ options w src,
      truthy (prop options "cache") = false →
      readFile E (toKey (prop options "filename")) = Normal src →
      let w' := snd (FileHandlers.handleCache E options w) in
      templates w' = templates w
      ∧ compiled w' = (compiled w ++ [(src, getConfig E options)])%list)
  ∧ (∀ n src data config cb w,
      cache_neutral E →
      truthy (prop (optionsOf E config) "cache") = false →
      let w' := render_times E n (TSource src) data config cb w in
      templates w' = templates w
      ∧ compiled w' = (compiled w ++ replicate n (src, optionsOf E config))%list)
  ∧ (∀ n filename data config cb w path src,
      cache_neutral E →
      truthy (prop (effectiveConfig E data config) "cache") = false →
      getPath E filename (effectiveConfig E data config) = Normal path →
      readFile E path = Normal src →
      let w' := renderFile_times E n filename data config cb w in
      templates w' = templates w
      ∧ compiled w' = (compiled w ++
          replicate n (src, getConfig E (<["filename" := VStr path]>
                                           (effectiveConfig E data config))))%list).
Proof.
  split; [| split; [| split]].
  - intros src options w Hc. by apply render_handleCache_disabled.
  - intros options w src Hc Hread.
    rewrite (file_handleCache_disabled _ _ _ Hc), loadFile_unfold, Hread. simpl.
    by destruct (compile E src (getConfig E options)).
  - intros n src data config cb w Hneutral Hc. revert w.
    induction n as [| n IH]; intros w; simpl.
    + by rewrite app_nil_r.
    + destruct (render_once_disabled E src data config cb w Hneutral Hc) as [Ht Hl].
      destruct (IH (snd (Render.render E (TSource src) data config cb w))) as [Ht' Hl'].
      split; [congruence |]. rewrite Hl', Hl, <- app_assoc. reflexivity.
  - intros n filename data config cb w path src Hneutral Hc Hpath Hread. revert w.
    induction n as [| n IH]; intros w; simpl.
    + by rewrite app_nil_r.
    + destruct (renderFile_once_disabled E filename data config cb w path src
                  Hneutral Hc Hpath Hread) as [Ht Hl].
      destruct (IH (snd (FileHandlers.renderFile E filename data config cb w)))
        as [Ht' Hl'].
      split; [congruence |]. rewrite Hl', Hl, <- app_assoc. reflexivity.
Qed.

Lemma caching_disabled_compiles_fresh_witness :
  cache_neutral demoEnv
  ∧ (let w' := render_times demoEnv 3 (TSource hi_src) ada named_uncached None w_hit in
     templates w' = templates w_hit ∧ length (compiled w') = 3)
  ∧ (let w' := renderFile_times demoEnv 2 "hi.eta" ada (AVal VUndefined) None emptyWorld in
     templates w' = ∅ ∧ length (compiled w') = 2 ∧ reads w' = ["/views/hi.eta"; "/views/hi.eta"]).
Proof.
  destruct (caching_disabled_compiles_fresh demoEnv)
    as (_ & _ & Hrender & Hfile).
  split; [exact demo_cache_neutral |]. split.
  - destruct (Hrender 3 hi_src ada named_uncached None w_hit demo_cache_neutral eq_refl)
      as [Ht Hl].
    split; [exact Ht |]. rewrite Hl. reflexivity.
  - destruct (Hfile 2 "hi.eta" ada (AVal VUndefined) None emptyWorld "/views/hi.eta"
                hi_src demo_cache_neutral eq_refl eq_refl eq_refl) as [Ht Hl].
    split; [exact Ht |]. split; [rewrite Hl; reflexivity | reflexivity].
Defined.

(** ** Precompiled template functions *)

(** What [handleCache] does with a function in the template position. *)
Lemma render_handleCache_function (E : Env) (fn : TemplateFunction)
    (options : Obj) (w : World) :
  Render.handleCache E (TFunction fn) options w
  = if truthy (prop options "cache") && truthy (prop options "name") then
      match templates w !! toKey (prop options "name") with
      | Some cached => (Normal cached, w)
      | None =>
        (Normal fn,
         set_templates (<[toKey (prop options "name") := fn]> (templates w)) w)
      end
    else (Normal fn, w).
Proof.
  unfold Render.handleCache.
  destruct (truthy (prop options "cache") && truthy (prop options "name"));
    unfold_M; [| reflexivity].
  by destruct (templates w !! toKey (prop options "name")).
Qed.

(** C10, as the claim states it, fails on a cache hit: the supplied
    function would greet with "Bye", but the name is registered and the
    cached function is the one invoked; the supplied one is not
    registered. *)
Lemma render_function_cache_hit_uses_cached :
  fst (call demoEnv (Fn 2) ada (optionsOf demoEnv greeting_config) None w_hit)
  = Normal (VStr "Bye Ada")
  ∧ Render.render demoEnv (TFunction (Fn 2)) ada greeting_config None w_hit
    = (Normal (Direct (VStr "Hi Ada")), w_hit)
  ∧ templates w_hit !! "greeting" = Some (Fn 1).
Proof. repeat split; vm_compute; reflexivity. Qed.

(** C10, amended. [render] accepts an already compiled Template Function
    in the template position and never invokes the compiler for it. Unless
    caching is enabled and [options.name] is already registered, the
    function supplied is the one delivered, and it is registered under
    [options.name] when caching is enabled and a name is present; on a hit
    the cached function is delivered instead and the cache is left as it
    is. *)
Theorem precompiled_template_function (E : Env) (fn : TemplateFunction)
    (data : Value) (config : Arg) (cb : option CallbackFn) (w : World) :
  let options := optionsOf E config in
  let key := toKey (prop options "name") in
  compiled (snd (Render.handleCache E (TFunction fn) options w)) = compiled w
  ∧ Render.render E (TFunction fn) data config cb w
    = if truthy (prop options "cache") && truthy (prop options "name") then
        match templates w !! key with
        | Some cached => deliver E cached data options cb w
        | None =>
          deliver E fn data options cb
            (set_templates (<[key := fn]> (templates w)) w)
        end
      else deliver E fn data options cb w.
Proof.
  intros options key.
  pose proof (render_handleCache_function E fn options w) as Hh.
  fold key in Hh. split.
  - rewrite Hh.
    destruct (truthy (prop options "cache") && truthy (prop options "name"));
      [| reflexivity].
    by destruct (templates w !! key).
  - destruct (truthy (prop options "cache") && truthy (prop options "name"));
      [destruct (templates w !! key) |];
      by apply render_of_handleCache.
Qed.

Example precompiled_template_demo :
  Render.render demoEnv (TFunction (Fn 2)) ada greeting_config None emptyWorld
  = (Normal (Direct (VStr "Bye Ada")),
     mkWorld {[ "greeting" := Fn 2 ]} [] [] []).
Proof. vm_compute. reflexivity. Qed.

(** ** The asynchronous entry points *)

(** [renderAsync] is [render] with [async: true] written over the
    configuration, in every argument shape. *)
Lemma renderAsync_forces_async (E : Env) (template : Template) (data : Value)
    (config : Arg) (cb : option CallbackFn) :
  Render.renderAsync E template data config cb
  = Render.render E template data
      (AVal (VObj (<["async" := VBool true]> (ownPropsArg config)))) cb
  ∧ truthy (prop (optionsOf E (AVal (VObj (<["async" := VBool true]> (ownPropsArg config)))))
              "async") = true.
Proof.
  split; [reflexivity |]. unfold optionsOf. simpl.
  rewrite (getConfig_override _ _ "async" (VBool true)); [done |].
  apply lookup_insert_eq.
Qed.

(** [renderFileAsync] forces [async: true] when the configuration is an
    object and when the callback sits in its place. *)
Lemma renderFileAsync_object_config (E : Env) (filename : string) (data : Value)
    (c : Obj) (cb : option CallbackFn) :
  FileHandlers.renderFileAsync E filename data (AVal (VObj c)) cb
  = FileHandlers.renderFile E filename data
      (AVal (VObj (<["async" := VBool true]> c))) cb.
Proof. reflexivity. Qed.

Lemma renderFileAsync_callback_config (E : Env) (filename : string) (data : Value)
    (f : CallbackFn) (cb : option CallbackFn) :
  FileHandlers.renderFileAsync E filename data (AFun f) cb
  = FileHandlers.renderFile E filename
      (VObj (<["async" := VBool true]> (ownProps data))) (AFun f) cb.
Proof. reflexivity. Qed.

(** C5 fails for [renderFileAsync] when the configuration is absent: the
    call is passed on unchanged, so the configuration that reaches the
    compiler has asynchronous mode off and a template that uses [await] is
    rejected, whereas [renderFile] with [async: true] forced renders it, and
    the sibling [renderAsync] forces the flag in the same argument shape. *)
Theorem renderFileAsync_absent_config_not_forced :
  (∀ E filename data cb,
     FileHandlers.renderFileAsync E filename data (AVal VUndefined) cb
     = FileHandlers.renderFile E filename data (AVal VUndefined) cb)
  ∧ map (λ c, prop (snd c) "async")
      (compiled (snd (FileHandlers.renderFileAsync demoEnv "await.eta" ada
                        (AVal VUndefined) None emptyWorld)))
    = [VBool false]
  ∧ fst (FileHandlers.renderFileAsync demoEnv "await.eta" ada (AVal VUndefined)
           None emptyWorld)
    = Normal (Promised (Rejected (EtaErr
        ("Loading file: /views/await.eta failed:" ++ nl ++ nl ++
         "await is only valid in async functions and the top level bodies of modules"))))
  ∧ fst (FileHandlers.renderFile demoEnv "await.eta" ada
           (AVal (VObj {[ "async" := VBool true ]})) None emptyWorld)
    = Normal (Promised (Resolved (VStr "Hi Ada")))
  ∧ fst (Render.renderAsync demoEnv (TSource await_src) ada (AVal VUndefined)
           None emptyWorld)
    = Normal (Promised (Resolved (VStr "Hi Ada"))).
Proof.
  split; [reflexivity |]. repeat split; vm_compute; reflexivity.
Qed.

(** ** Further properties of [render.ts] *)



(** [renderAsync] never throws and never returns the string itself,
    whatever the configuration says about [async]: with a callback it
    returns [undefined], without one it returns a promise. *)
Theorem renderAsync_always_deferred (E : Env) (template : Template)
    (data : Value) (config : Arg) (cb : option CallbackFn) (w : World) :
  ∃ r w', Render.renderAsync E template data config cb w = (Normal r, w')
          ∧ match cb with
            | Some _ => r = Direct VUndefined
            | None => ∃ settled, r = Promised settled
            end.
Proof.
  destruct (renderAsync_forces_async E template data config cb) as [-> Hasync].
  set (forced := AVal (VObj (<["async" := VBool true]> (ownPropsArg config)))) in *.
  unfold Render.render. fold (optionsOf E forced). rewrite Hasync.
  destruct cb as [c |]; unfold_M;
    destruct (Render.handleCache E template (optionsOf E forced) w) as [[fn | e0] w0];
    try destruct (call E fn data (optionsOf E forced) _ w0) as [[v0 | e1] w2];
    by eauto.
Qed.

(** [handleCache] of [render.ts] only ever adds the entry of
    [options.name]: an entry that exists is neither removed nor
    overwritten, and every other key is left alone. *)
Theorem render_handleCache_keeps_entries (E : Env) (template : Template)
    (options : Obj) (w : World) (k : string)
    (Hk : is_Some (templates w !! k) ∨ k ≠ toKey (prop options "name")) :
  templates (snd (Render.handleCache E template options w)) !! k
  = templates w !! k.
Proof.
  unfold Render.handleCache.
  destruct (truthy (prop options "cache") && truthy (prop options "name"));
    unfold_M; simpl.
  - destruct (templates w !! toKey (prop options "name")) as [cached |] eqn:Hget;
      [reflexivity |].
    assert (Hne : toKey (prop options "name") ≠ k).
    { destruct Hk as [[f Hf] | Hne]; [| done]. intros Heq. subst k. congruence. }
    destruct template as [src | fn]; simpl.
    + destruct (compile E src options); simpl; [| reflexivity].
      by rewrite lookup_insert_ne.
    + by rewrite lookup_insert_ne.
  - destruct template as [src | fn]; simpl; [| reflexivity].
    by destruct (compile E src options).
Qed.

Lemma render_handleCache_keeps_entries_witness :
  (is_Some (templates w_hit !! "greeting")
   ∨ "greeting" ≠ toKey (prop (optionsOf demoEnv greeting_config) "name"))
  ∧ templates (snd (Render.handleCache demoEnv (TSource bye_src)
                      (optionsOf demoEnv greeting_config) w_hit)) !! "greeting"
    = Some (Fn 1).
Proof.
  assert (H : is_Some (templates w_hit !! "greeting")
              ∨ "greeting" ≠ toKey (prop (optionsOf demoEnv greeting_config) "name")).
  { left. by exists (Fn 1). }
  split; [exact H |].
  rewrite (render_handleCache_keeps_entries demoEnv (TSource bye_src)
             (optionsOf demoEnv greeting_config) w_hit "greeting" H).
  reflexivity.
Defined.

(** The same for [handleCache] of [file-handlers.ts], when the options
    carry their own filename: only the entry of that filename can be added,
    existing entries stay. *)
Theorem file_handleCache_keeps_entries (E : Env) (options : Obj) (w : World)
    (k : string)
    (Hfilename : is_Some (options !! "filename"))
    (Hk : is_Some (templates w !! k) ∨ k ≠ toKey (prop options "filename")) :
  templates (snd (FileHandlers.handleCache E options w)) !! k
  = templates w !! k.
Proof.
  destruct Hfilename as [v Hv].
  assert (Hsame : prop (getConfig E options) "filename" = prop options "filename").
  { rewrite (getConfig_override _ _ _ _ Hv). unfold prop. by rewrite Hv. }
  unfold FileHandlers.handleCache.
  destruct (truthy (prop options "cache")).
  - unfold mbind, M_bind, templates_get.
    destruct (templates w !! toKey (prop options "filename")) as [cached |] eqn:Hget;
      [reflexivity |].
    assert (Hne : toKey (prop options "filename") ≠ k).
    { destruct Hk as [[f Hf] | Hne]; [| done]. intros Heq. subst k. congruence. }
    rewrite loadFile_unfold.
    destruct (readFile E _) as [src | e]; [| reflexivity]. simpl.
    destruct (compile E src _) as [fn | e]; [| reflexivity]. simpl.
    rewrite Hsame. by rewrite lookup_insert_ne.
  - rewrite loadFile_unfold.
    destruct (readFile E _) as [src | e]; [| reflexivity]. simpl.
    by destruct (compile E src _) as [fn | e].
Qed.

Lemma file_handleCache_keeps_entries_witness :
  is_Some (cached_hi_options !! "filename")
  ∧ (is_Some (templates w_hit !! "greeting")
     ∨ "greeting" ≠ toKey (prop cached_hi_options "filename"))
  ∧ templates (snd (FileHandlers.handleCache demoEnv cached_hi_options w_hit))
      !! "greeting" = Some (Fn 1)
  ∧ templates (snd (FileHandlers.handleCache demoEnv cached_hi_options w_hit))
      !! "/views/hi.eta" = Some (Fn 1).
Proof.
  assert (Hf : is_Some (cached_hi_options !! "filename")).
  { by exists (VStr "/views/hi.eta"). }
  assert (Hk : is_Some (templates w_hit !! "greeting")
               ∨ "greeting" ≠ toKey (prop cached_hi_options "filename")).
  { left. by exists (Fn 1). }
  split; [exact Hf |]. split; [exact Hk |]. split.
  - rewrite (file_handleCache_keeps_entries demoEnv cached_hi_options w_hit
               "greeting" Hf Hk).
    reflexivity.
  - vm_compute. reflexivity.
Defined.

(** ** Failures, missing names and repeated cached renders *)

(** A failing [handleCache] registers nothing. For a string template the
    failure can only be the compiler's, on source, and the error is the
    compiler's own, not wrapped. *)
Theorem handleCache_failure_registers_nothing (E : Env) (options : Obj)
    (w w' : World) (e : JsError) :
  (∀ template,
     Render.handleCache E template options w = (Throw e, w') →
     templates w' = templates w
     ∧ ∃ src, template = TSource src ∧ compile E src options = Throw e)
  ∧ (FileHandlers.handleCache E options w = (Throw e, w') →
     templates w' = templates w).
Proof.
  split.
  - intros template. unfold Render.handleCache.
    destruct (truthy (prop options "cache") && truthy (prop options "name"));
      unfold_M; simpl.
    + destruct (templates w !! toKey (prop options "name")); [done |].
      destruct template as [src | fn]; simpl; [| done].
      destruct (compile E src options) as [fn | e0] eqn:Hc; simpl; [done |].
      intros [= -> <-]. eauto.
    + destruct template as [src | fn]; simpl; [| done].
      destruct (compile E src options) as [fn | e0] eqn:Hc; simpl; [done |].
      intros [= -> <-]. eauto.
  - unfold FileHandlers.handleCache.
    destruct (truthy (prop options "cache")).
    + unfold mbind, M_bind, templates_get.
      destruct (templates w !! toKey (prop options "filename")); [done |].
      apply loadFile_failure_registers_nothing.
    + apply loadFile_failure_registers_nothing.
Qed.

Lemma handleCache_failure_registers_nothing_witness :
  Render.handleCache demoEnv (TSource bad_src) (optionsOf demoEnv greeting_config) w_miss
  = (Throw (OtherError "SyntaxError" "Unexpected end of input"),
     log_compile (bad_src, optionsOf demoEnv greeting_config) w_miss)
  ∧ templates (log_compile (bad_src, optionsOf demoEnv greeting_config) w_miss)
    = templates w_miss.
Proof.
  assert (Hrun : Render.handleCache demoEnv (TSource bad_src)
                   (optionsOf demoEnv greeting_config) w_miss
                 = (Throw (OtherError "SyntaxError" "Unexpected end of input"),
                    log_compile (bad_src, optionsOf demoEnv greeting_config) w_miss))
    by reflexivity.
  split; [exact Hrun |].
  exact (proj1 (proj1 (handleCache_failure_registers_nothing demoEnv
                         (optionsOf demoEnv greeting_config) w_miss _ _)
                  (TSource bad_src) Hrun)).
Defined.

(** When the file cannot be read, [renderFile] delivers the read error as
    it is (only compilation errors are wrapped by [loadFile]), the compiler
    is not called and nothing is registered. *)
Theorem renderFile_read_error_unwrapped (E : Env) (filename : string)
    (data : Value) (config : Arg) (cb : option CallbackFn) (w : World)
    (path : string) (e : JsError)
    (Hpath : getPath E filename (effectiveConfig E data config) = Normal path)
    (Hmiss : templates w !! path = None)
    (Hread : readFile E path = Throw e) :
  FileHandlers.renderFile E filename data config cb w
  = match callbackOf config cb with
    | Some c => (Normal (Direct VUndefined),
                 log_callback (mkCbCall c (Some e) None) (log_read path w))
    | None => (Normal (Promised (Rejected e)), log_read path w)
    end.
Proof.
  rewrite renderFile_unfold, Hpath.
  set (options := <["filename" := VStr path]> (effectiveConfig E data config)).
  assert (Hkey : toKey (prop options "filename") = path).
  { unfold options. by rewrite prop_insert_eq. }
  assert (Hh : FileHandlers.handleCache E options w = (Throw e, log_read path w)).
  { unfold FileHandlers.handleCache. rewrite Hkey.
    destruct (truthy (prop options "cache")).
    - unfold mbind, M_bind, templates_get. rewrite Hmiss.
      by rewrite loadFile_unfold, Hread.
    - by rewrite loadFile_unfold, Hread. }
  apply tryHandleCache_error. unfold mbind, M_bind. by rewrite Hh.
Qed.

Lemma renderFile_read_error_unwrapped_witness :
  getPath brokenDiskEnv "hi.eta" (effectiveConfig brokenDiskEnv ada (AVal VUndefined))
  = Normal "/views/hi.eta"
  ∧ templates emptyWorld !! "/views/hi.eta" = None
  ∧ readFile brokenDiskEnv "/views/hi.eta" = Throw (EtaErr "Failed to read template")
  ∧ FileHandlers.renderFile brokenDiskEnv "hi.eta" ada (AVal VUndefined) (Some 7) emptyWorld
    = (Normal (Direct VUndefined),
       mkWorld ∅ [] ["/views/hi.eta"]
         [mkCbCall 7 (Some (EtaErr "Failed to read template")) None]).
Proof.
  split; [reflexivity |]. split; [reflexivity |]. split; [reflexivity |].
  exact (renderFile_read_error_unwrapped brokenDiskEnv "hi.eta" ada (AVal VUndefined)
           (Some 7) emptyWorld "/views/hi.eta" (EtaErr "Failed to read template")
           eq_refl eq_refl eq_refl).
Defined.

(** Delivery of a function changes neither the cache nor the compile log
    when template functions are cache-neutral. *)
Lemma deliver_cache_neutral (E : Env) (fn : TemplateFunction) (data : Value)
    (options : Obj) (cb : option CallbackFn) (w : World) :
  cache_neutral E →
  templates (snd (deliver E fn data options cb w)) = templates w
  ∧ compiled (snd (deliver E fn data options cb w)) = compiled w.
Proof.
  intros Hneutral. unfold deliver, deliver_async.
  destruct (truthy (prop options "async")); [destruct cb as [c |] |]; unfold_M;
    match goal with
    | |- context [call E fn data options ?k w] =>
      destruct (Hneutral fn data options k w) as [Ht Hl];
      destruct (call E fn data options k w) as [[v | e] w2]
    end; simpl in *; by rewrite ?Ht, ?Hl.
Qed.

Lemma deliver_async_io_neutral (E : Env) (fn : TemplateFunction) (data : Value)
    (options : Obj) (cb : option CallbackFn) (w : World) :
  io_neutral E →
  templates (snd (deliver_async E fn data options cb w)) = templates w
  ∧ compiled (snd (deliver_async E fn data options cb w)) = compiled w
  ∧ reads (snd (deliver_async E fn data options cb w)) = reads w.
Proof.
  intros Hneutral. unfold deliver_async.
  destruct cb as [c |]; unfold_M;
    match goal with
    | |- context [call E fn data options ?k w] =>
      destruct (Hneutral fn data options k w) as (Ht & Hl & Hr);
      destruct (call E fn data options k w) as [[v | e] w2]
    end; simpl in *; by rewrite ?Ht, ?Hl, ?Hr.
Qed.

(** With caching on but no name in the options, [render] caches nothing:
    [n] renders of a source compile it [n] times and leave the cache as it
    was. *)
Theorem render_cache_without_name (E : Env) (n : nat) (src : string)
    (data : Value) (config : Arg) (cb : option CallbackFn) (w : World)
    (Hneutral : cache_neutral E)
    (Hname : truthy (prop (optionsOf E config) "name") = false) :
  templates (render_times E n (TSource src) data config cb w) = templates w
  ∧ compiled (render_times E n (TSource src) data config cb w)
    = (compiled w ++ replicate n (src, optionsOf E config))%list.
Proof.
  assert (Hh : ∀ w0, Render.handleCache E (TSource src) (optionsOf E config) w0
                     = (compile E src (optionsOf E config),
                        log_compile (src, optionsOf E config) w0)).
  { intros w0. unfold Render.handleCache. rewrite Hname, andb_false_r.
    unfold_M. by destruct (compile E src (optionsOf E config)). }
  assert (Hone : ∀ w0,
            templates (snd (Render.render E (TSource src) data config cb w0)) = templates w0
            ∧ compiled (snd (Render.render E (TSource src) data config cb w0))
              = (compiled w0 ++ [(src, optionsOf E config)])%list).
  { intros w0. destruct (compile E src (optionsOf E config)) as [fn | e] eqn:Hc.
    - rewrite (render_of_handleCache E _ data config cb w0 _ fn)
        by (by rewrite Hh).
      by destruct (deliver_cache_neutral E fn data (optionsOf E config) cb
                     (log_compile (src, optionsOf E config) w0) Hneutral) as [-> ->].
    - unfold Render.render. fold (optionsOf E config).
      destruct (truthy (prop (optionsOf E config) "async")); [destruct cb |];
        unfold_M; by rewrite Hh. }
  revert w. induction n as [| n IH]; intros w; simpl.
  - by rewrite app_nil_r.
  - destruct (Hone w) as [Ht Hl].
    destruct (IH (snd (Render.render E (TSource src) data config cb w))) as [Ht' Hl'].
    split; [congruence |]. rewrite Hl', Hl, <- app_assoc. reflexivity.
Qed.

Lemma render_cache_without_name_witness :
  cache_neutral demoEnv
  ∧ truthy (prop (optionsOf demoEnv nameless_cached) "name") = false
  ∧ templates (render_times demoEnv 3 (TSource hi_src) ada nameless_cached None emptyWorld)
    = ∅
  ∧ length (compiled (render_times demoEnv 3 (TSource hi_src) ada nameless_cached
                        None emptyWorld)) = 3.
Proof.
  destruct (render_cache_without_name demoEnv 3 hi_src ada nameless_cached None
              emptyWorld demo_cache_neutral eq_refl) as [Ht Hl].
  split; [exact demo_cache_neutral |]. split; [reflexivity |].
  split; [exact Ht |]. rewrite Hl. reflexivity.
Defined.

(** ** Compile once, render many *)

(** With caching on and a name, [n + 1] renders of a source that was not
    registered compile it exactly once: the first render registers the
    function, every later one finds it. *)
Theorem render_cached_compiles_once (E : Env) (n : nat) (src : string)
    (data : Value) (config : Arg) (cb : option CallbackFn) (w : World)
    (fn : TemplateFunction)
    (Hneutral : cache_neutral E)
    (Hcache : truthy (prop (optionsOf E config) "cache") = true)
    (Hname : truthy (prop (optionsOf E config) "name") = true)
    (Hmiss : templates w !! toKey (prop (optionsOf E config) "name") = None)
    (Hcomp : compile E src (optionsOf E config) = Normal fn) :
  templates (render_times E (S n) (TSource src) data config cb w)
  = <[toKey (prop (optionsOf E config) "name") := fn]> (templates w)
  ∧ compiled (render_times E (S n) (TSource src) data config cb w)
    = (compiled w ++ [(src, optionsOf E config)])%list.
Proof.
  set (options := optionsOf E config) in *.
  set (key := toKey (prop options "name")) in *.
  assert (Hhits : ∀ m w0, templates w0 !! key = Some fn →
            templates (render_times E m (TSource src) data config cb w0) = templates w0
            ∧ compiled (render_times E m (TSource src) data config cb w0) = compiled w0).
  { induction m as [| m IH]; intros w0 Hreg; simpl; [done |].
    assert (Hrun : Render.render E (TSource src) data config cb w0
                   = deliver E fn data options cb w0).
    { apply render_of_handleCache. by apply render_handleCache_hit. }
    destruct (deliver_cache_neutral E fn data options cb w0 Hneutral) as [Ht Hl].
    rewrite Hrun. destruct (IH (snd (deliver E fn data options cb w0))) as [Ht' Hl'].
    - by rewrite Ht.
    - split; congruence. }
  simpl.
  rewrite (render_of_handleCache E (TSource src) data config cb w _ fn
             (render_handleCache_miss E src options w fn Hcache Hname Hmiss Hcomp)).
  match goal with
  | |- context [deliver E fn data ?o cb ?w1] =>
    destruct (deliver_cache_neutral E fn data o cb w1 Hneutral) as [Ht Hl];
    destruct (Hhits n (snd (deliver E fn data o cb w1))) as [Ht' Hl']
  end.
  - rewrite Ht. simpl. apply lookup_insert_eq.
  - rewrite Ht', Hl', Ht, Hl. done.
Qed.

Lemma render_cached_compiles_once_witness :
  cache_neutral demoEnv
  ∧ templates emptyWorld !! toKey (prop (optionsOf demoEnv greeting_config) "name") = None
  ∧ compile demoEnv hi_src (optionsOf demoEnv greeting_config) = Normal (Fn 1)
  ∧ length (compiled (render_times demoEnv 4 (TSource hi_src) ada greeting_config
                        None emptyWorld)) = 1.
Proof.
  destruct (render_cached_compiles_once demoEnv 3 hi_src ada greeting_config None
              emptyWorld (Fn 1) demo_cache_neutral eq_refl eq_refl eq_refl eq_refl)
    as [_ Hl].
  split; [exact demo_cache_neutral |]. split; [reflexivity |].
  split; [reflexivity |]. rewrite Hl. reflexivity.
Defined.

(** The generated functions of the concrete environment leave cache,
    compiler and disk alone. *)
Lemma demo_io_neutral : io_neutral demoEnv.
Proof.
  intros [[| [| [| n]]]] data options [c |] w; repeat split; reflexivity.
Qed.

(** With caching on, [n + 1] calls of [renderFile] for a file that was not
    registered read the disk exactly once and compile exactly once; the
    function is registered under the resolved path. *)
Theorem renderFile_cached_reads_once (E : Env) (n : nat) (filename : string)
    (data : Value) (config : Arg) (cb : option CallbackFn) (w : World)
    (path src : string) (fn : TemplateFunction)
    (Hneutral : io_neutral E)
    (Hcache : truthy (prop (effectiveConfig E data config) "cache") = true)
    (Hpath : getPath E filename (effectiveConfig E data config) = Normal path)
    (Hmiss : templates w !! path = None)
    (Hread : readFile E path = Normal src)
    (Hcomp : compile E src
               (getConfig E (<["filename" := VStr path]> (effectiveConfig E data config)))
             = Normal fn) :
  let w' := renderFile_times E (S n) filename data config cb w in
  templates w' = <[path := fn]> (templates w)
  ∧ compiled w'
    = (compiled w ++
       [(src, getConfig E (<["filename" := VStr path]> (effectiveConfig E data config)))])%list
  ∧ reads w' = (reads w ++ [path])%list.
Proof.
  set (options := <["filename" := VStr path]> (effectiveConfig E data config)) in *.
  assert (Hc : truthy (prop options "cache") = true).
  { unfold options. by rewrite prop_insert_ne. }
  assert (Hkey : toKey (prop options "filename") = path).
  { unfold options. by rewrite prop_insert_eq. }
  assert (Hkey' : toKey (prop (getConfig E options) "filename") = path).
  { rewrite (getConfig_override E options "filename" (VStr path)); [done |].
    unfold options. apply lookup_insert_eq. }
  assert (Hhits : ∀ m w0, templates w0 !! path = Some fn →
            let w1 := renderFile_times E m filename data config cb w0 in
            templates w1 = templates w0 ∧ compiled w1 = compiled w0
            ∧ reads w1 = reads w0).
  { induction m as [| m IH]; intros w0 Hreg; simpl; [done |].
    assert (Hrun : FileHandlers.renderFile E filename data config cb w0
                   = deliver_async E fn (orEmpty data) options (callbackOf config cb) w0).
    { rewrite renderFile_unfold, Hpath. apply tryHandleCache_of_handleCache.
      apply file_handleCache_hit; [done |]. by rewrite Hkey. }
    destruct (deliver_async_io_neutral E fn (orEmpty data) options
                (callbackOf config cb) w0 Hneutral) as (Ht & Hl & Hr).
    rewrite Hrun.
    destruct (IH (snd (deliver_async E fn (orEmpty data) options
                         (callbackOf config cb) w0))) as (Ht' & Hl' & Hr').
    - by rewrite Ht.
    - repeat split; congruence. }
  intros w'. subst w'. simpl.
  assert (Hfirst : FileHandlers.handleCache E options w
            = (Normal fn,
               set_templates (<[path := fn]> (templates w))
                 (log_compile (src, getConfig E options) (log_read path w)))).
  { unfold FileHandlers.handleCache. rewrite Hc, Hkey.
    unfold mbind, M_bind, templates_get. rewrite Hmiss.
    rewrite loadFile_unfold, Hread. simpl. rewrite Hcomp. simpl.
    by rewrite Hkey'. }
  rewrite renderFile_unfold, Hpath. fold options.
  rewrite (tryHandleCache_of_handleCache E (orEmpty data) options
             (callbackOf config cb) w _ fn Hfirst).
  match goal with
  | |- context [deliver_async E fn ?d ?o ?k ?w1] =>
    destruct (deliver_async_io_neutral E fn d o k w1 Hneutral) as (Ht & Hl & Hr);
    destruct (Hhits n (snd (deliver_async E fn d o k w1))) as (Ht' & Hl' & Hr')
  end.
  - rewrite Ht. simpl. apply lookup_insert_eq.
  - rewrite Ht', Hl', Hr', Ht, Hl, Hr. done.
Qed.

Lemma renderFile_cached_reads_once_witness :
  io_neutral demoEnv
  ∧ getPath demoEnv "hi.eta" (effectiveConfig demoEnv ada cache_on) = Normal "/views/hi.eta"
  ∧ (let w' := renderFile_times demoEnv 3 "hi.eta" ada cache_on None emptyWorld in
     templates w' = {[ "/views/hi.eta" := Fn 1 ]}
     ∧ length (compiled w') = 1
     ∧ reads w' = ["/views/hi.eta"]).
Proof.
  destruct (renderFile_cached_reads_once demoEnv 2 "hi.eta" ada cache_on None
              emptyWorld "/views/hi.eta" hi_src (Fn 1) demo_io_neutral
              eq_refl eq_refl eq_refl eq_refl eq_refl) as (Ht & Hl & Hr).
  split; [exact demo_io_neutral |]. split; [reflexivity |].
  split; [| split].
  - rewrite Ht. reflexivity.
  - rewrite Hl. reflexivity.
  - rewrite Hr. reflexivity.
Defined.

(** Preloading: after a successful [loadFile] (without [noCache]) for
    options that carry their filename, [handleCache] with caching on under
    the same filename returns the loaded function and touches neither disk
    nor compiler. *)
Theorem loadFile_then_handleCache (E : Env) (filePath : string)
    (options options' : Obj) (w : World) (src : string) (fn : TemplateFunction)
    (name : Value)
    (Hfilename : options !! "filename" = Some name)
    (Hread : readFile E filePath = Normal src)
    (Hcomp : compile E src (getConfig E options) = Normal fn)
    (Hcache : truthy (prop options' "cache") = true)
    (Hsame : prop options' "filename" = name) :
  let w1 := snd (FileHandlers.loadFile E filePath options None w) in
  FileHandlers.handleCache E options' w1 = (Normal fn, w1).
Proof.
  intros w1. apply file_handleCache_hit; [done |].
  subst w1. rewrite loadFile_unfold, Hread. simpl. rewrite Hcomp. simpl.
  rewrite (getConfig_override E options "filename" name Hfilename), Hsame.
  apply lookup_insert_eq.
Qed.

Lemma loadFile_then_handleCache_witness :
  hi_options !! "filename" = Some (VStr "/views/hi.eta")
  ∧ fst (FileHandlers.handleCache demoEnv cached_hi_options
           (snd (FileHandlers.loadFile demoEnv "/views/hi.eta" hi_options None emptyWorld)))
    = Normal (Fn 1)
  ∧ reads (snd (FileHandlers.handleCache demoEnv cached_hi_options
                  (snd (FileHandlers.loadFile demoEnv "/views/hi.eta" hi_options None
                          emptyWorld))))
    = ["/views/hi.eta"].
Proof.
  pose proof (loadFile_then_handleCache demoEnv "/views/hi.eta" hi_options
                cached_hi_options emptyWorld hi_src (Fn 1) (VStr "/views/hi.eta")
                eq_refl eq_refl eq_refl eq_refl eq_refl) as Hhit.
  simpl in Hhit. split; [reflexivity |]. split; by rewrite Hhit.
Defined.

(** ** Argument shapes and settings of [renderFile] *)

(** A callback in the third position is the callback: the call equals the
    call without configuration and with the callback in the fourth
    position; when both positions hold a function, the fourth is used and
    the third is ignored. *)
Theorem renderFile_callback_position (E : Env) (filename : string)
    (data : Value) (f : CallbackFn) (cb : option CallbackFn) (w : World) :
  FileHandlers.renderFile E filename data (AFun f) cb w
  = FileHandlers.renderFile E filename data (AVal VUndefined) (Some (default f cb)) w.
Proof.
  rewrite !renderFile_unfold.
  assert (Heff : effectiveConfig E data (AFun f) = effectiveConfig E data (AVal VUndefined))
    by reflexivity.
  rewrite Heff. by destruct cb.
Qed.

(** [null] in the configuration position counts as an explicit, empty
    configuration ([typeof null] is ["object"]): the settings of the data
    object are not consulted, exactly as with [{}]. *)
Theorem renderFile_null_config (E : Env) (filename : string) (data : Value)
    (cb : option CallbackFn) (w : World) :
  FileHandlers.renderFile E filename data (AVal VNull) cb w
  = FileHandlers.renderFile E filename data (AVal (VObj ∅)) cb w
  ∧ effectiveConfig E data (AVal VNull) = getConfig E ∅.
Proof. split; [by rewrite !renderFile_unfold | reflexivity]. Qed.

Lemma ownProps_orEmpty (data : Value) : ownProps (orEmpty data) = ownProps data.
Proof.
  unfold orEmpty. destruct data as [| | [|] | s | o]; try reflexivity.
  simpl. by destruct (negb (String.eqb s "")).
Qed.

(** Without an explicit configuration object, the effective configuration
    is the data-derived one with the settings laid over it, the view
    options last. *)
Lemma effectiveConfig_from_data (E : Env) (data : Value) (config : Arg) :
  String.eqb (typeof config) "object" = false →
  effectiveConfig E data config
  = if truthy (settingsOf data) then
      copyProps
        ((if truthy (prop (ownProps (settingsOf data)) "view cache")
          then <["cache" := VBool true]> else id)
           ((if truthy (prop (ownProps (settingsOf data)) "views")
             then <["views" := prop (ownProps (settingsOf data)) "views"]> else id)
              (getConfig E (ownProps (orEmpty data)))))
        (viewOptionsOf data)
    else getConfig E (ownProps (orEmpty data)).
Proof.
  intros Hshape. unfold effectiveConfig, viewOptionsOf. rewrite Hshape.
  fold (settingsOf data).
  destruct (truthy (settingsOf data)); [| reflexivity].
  destruct (truthy (prop (ownProps (settingsOf data)) "views"));
    destruct (truthy (prop (ownProps (settingsOf data)) "view cache"));
    destruct (prop (ownProps (settingsOf data)) "view options") as [| | [|] | s | vo];
    simpl; unfold copyProps; rewrite ?(left_id_L ∅ (∪)); try reflexivity;
    by destruct (negb (String.eqb s "")); rewrite ?(left_id_L ∅ (∪)).
Qed.

(** An option that neither the view options nor the two settings touch is
    the data object's, or else the process-wide one. *)
Lemma effectiveConfig_untouched_key (E : Env) (data : Value) (config : Arg)
    (k : string) :
  String.eqb (typeof config) "object" = false →
  viewOptionsOf data !! k = None → k ≠ "views" → k ≠ "cache" →
  prop (effectiveConfig E data config) k
  = prop (getConfig E (ownProps (orEmpty data))) k.
Proof.
  intros Hshape Hvo Hk1 Hk2.
  rewrite (effectiveConfig_from_data E data config Hshape).
  destruct (truthy (settingsOf data)); [| reflexivity].
  destruct (truthy (prop (ownProps (settingsOf data)) "view cache"));
    destruct (truthy (prop (ownProps (settingsOf data)) "views"));
    unfold prop at 1, copyProps; rewrite lookup_union_r by done; simpl;
    by rewrite ?lookup_insert_ne by done.
Qed.

(** Precedence among the sources of a configuration that is read from the
    data object: a view option wins over everything; a truthy
    ["view cache"] turns the cache on even when the data object says
    [cache: false]; truthy [settings.views] replaces the views root of the
    data object; every other option is the data object's, or else the
    process-wide one. *)
Theorem renderFile_settings_precedence (E : Env) (data : Value) (config : Arg)
    (Hshape : String.eqb (typeof config) "object" = false) :
  (∀ filename cb w,
     FileHandlers.renderFile E filename data config cb w
     = match getPath E filename (effectiveConfig E data config) with
       | Throw e => (Throw e, w)
       | Normal path =>
         FileHandlers.tryHandleCache E (orEmpty data)
           (<["filename" := VStr path]> (effectiveConfig E data config))
           (callbackOf config cb) w
       end)
  ∧ (∀ k v, viewOptionsOf data !! k = Some v →
            prop (effectiveConfig E data config) k = v)
  ∧ (viewOptionsOf data !! "cache" = None →
     truthy (settingsOf data) = true →
     truthy (prop (ownProps (settingsOf data)) "view cache") = true →
     prop (effectiveConfig E data config) "cache" = VBool true)
  ∧ (viewOptionsOf data !! "views" = None →
     truthy (settingsOf data) = true →
     truthy (prop (ownProps (settingsOf data)) "views") = true →
     prop (effectiveConfig E data config) "views"
     = prop (ownProps (settingsOf data)) "views")
  ∧ (∀ k, viewOptionsOf data !! k = None → k ≠ "views" → k ≠ "cache" →
          prop (effectiveConfig E data config) k
          = prop (getConfig E (ownProps (orEmpty data))) k).
Proof.
  rewrite (effectiveConfig_from_data E data config Hshape).
  split; [| split; [| split; [| split]]].
  - intros filename cb w. rewrite renderFile_unfold.
    by rewrite (effectiveConfig_from_data E data config Hshape).
  - intros k v Hk. unfold viewOptionsOf in *.
    destruct (truthy (settingsOf data)); [| by rewrite lookup_empty in Hk].
    unfold prop, copyProps. by rewrite (lookup_union_Some_l _ _ _ _ Hk).
  - intros Hvo Hs Hvc. rewrite Hs, Hvc.
    unfold prop, copyProps. rewrite lookup_union_r by done.
    by rewrite lookup_insert_eq.
  - intros Hvo Hs Hv. rewrite Hs, Hv.
    destruct (truthy (prop (ownProps (settingsOf data)) "view cache"));
      unfold prop at 1 3, copyProps; rewrite lookup_union_r by done; simpl.
    + rewrite lookup_insert_ne by done. by rewrite lookup_insert_eq.
    + by rewrite lookup_insert_eq.
  - intros k Hvo Hk1 Hk2.
    rewrite <- (effectiveConfig_from_data E data config Hshape).
    by apply effectiveConfig_untouched_key.
Qed.

Lemma renderFile_settings_precedence_witness :
  String.eqb (typeof (AFun 7)) "object" = false
  ∧ prop (effectiveConfig demoEnv express_data (AFun 7)) "autoTrim" = VBool false
  ∧ prop (effectiveConfig demoEnv express_data (AFun 7)) "cache" = VBool true
  ∧ prop (effectiveConfig demoEnv express_data (AFun 7)) "views" = VStr "/y"
  ∧ prop (effectiveConfig demoEnv express_data (AFun 7)) "name" = VStr "Ada".
Proof.
  destruct (renderFile_settings_precedence demoEnv express_data (AFun 7) eq_refl)
    as (_ & Hvo & Hcache & Hviews & Hrest).
  split; [reflexivity |]. split; [| split; [| split]].
  - apply Hvo. reflexivity.
  - apply Hcache; reflexivity.
  - rewrite Hviews; reflexivity.
  - rewrite Hrest; [reflexivity | reflexivity | done | done].
Defined.

(** On success, once the path is resolved: with a callback [renderFile]
    returns [undefined] and makes no callback call of its own, handing the
    result over is left to the Template Function; without a callback the
    promise resolves with the result of the Template Function. *)
Theorem renderFile_success_delivery (E : Env) (filename : string) (data : Value)
    (config : Arg) (cb : option CallbackFn) (w w1 : World) (path : string)
    (result : Value)
    (Hpath : getPath E filename (effectiveConfig E data config) = Normal path)
    (Hstep : (fn ← FileHandlers.handleCache E
                     (<["filename" := VStr path]> (effectiveConfig E data config));
              call E fn (orEmpty data)
                (<["filename" := VStr path]> (effectiveConfig E data config))
                (callbackOf config cb)) w = (Normal result, w1)) :
  FileHandlers.renderFile E filename data config cb w
  = match callbackOf config cb with
    | Some c => (Normal (Direct VUndefined), w1)
    | None => (Normal (Promised (Resolved result)), w1)
    end.
Proof. rewrite renderFile_unfold, Hpath. by apply tryHandleCache_success. Qed.

Lemma renderFile_success_delivery_witness :
  getPath demoEnv "hi.eta" (effectiveConfig demoEnv ada (AFun 7)) = Normal "/views/hi.eta"
  ∧ fst (FileHandlers.renderFile demoEnv "hi.eta" ada (AFun 7) None emptyWorld)
    = Normal (Direct VUndefined)
  ∧ callbacks (snd (FileHandlers.renderFile demoEnv "hi.eta" ada (AFun 7) None emptyWorld))
    = [mkCbCall 7 None (Some (VStr "Hi Ada"))].
Proof.
  pose proof (renderFile_success_delivery demoEnv "hi.eta" ada (AFun 7) None emptyWorld
                _ "/views/hi.eta" (VStr "Hi Ada") eq_refl eq_refl) as Hrun.
  split; [reflexivity |]. split; by rewrite Hrun.
Defined.

(** [renderFile] throws exactly when path resolution throws, with the
    same error, and then nothing has happened yet: no read, no compilation,
    no registration, no callback call. *)
Theorem renderFile_throws_only_path_errors (E : Env) (filename : string)
    (data : Value) (config : Arg) (cb : option CallbackFn) (w : World)
    (e : JsError) :
  (fst (FileHandlers.renderFile E filename data config cb w) = Throw e
   ↔ getPath E filename (effectiveConfig E data config) = Throw e)
  ∧ (fst (FileHandlers.renderFile E filename data config cb w) = Throw e →
     snd (FileHandlers.renderFile E filename data config cb w) = w).
Proof.
  split; [apply renderFile_throws_iff |].
  intros Hthrow. apply renderFile_throws_iff in Hthrow.
  by rewrite renderFile_unfold, Hthrow.
Qed.

Lemma renderFile_throws_only_path_errors_witness :
  fst (FileHandlers.renderFile demoEnv "missing.eta" ada cache_on (Some 7) w_hit)
  = Throw (EtaErr "Could not find the template 'missing.eta'")
  ∧ snd (FileHandlers.renderFile demoEnv "missing.eta" ada cache_on (Some 7) w_hit) = w_hit.
Proof.
  destruct (renderFile_throws_only_path_errors demoEnv "missing.eta" ada cache_on
              (Some 7) w_hit (EtaErr "Could not find the template 'missing.eta'"))
    as [Hiff Hworld].
  assert (Hthrow : fst (FileHandlers.renderFile demoEnv "missing.eta" ada cache_on
                          (Some 7) w_hit)
                   = Throw (EtaErr "Could not find the template 'missing.eta'")).
  { apply Hiff. reflexivity. }
  split; [exact Hthrow | exact (Hworld Hthrow)].
Defined.

(** ** [includeFile] and the asynchronous file entry point *)

(** What the parent passes on: the configuration built for an included
    file has the resolved path as its filename and every other option the
    parent's options carry. *)
Lemma getConfigWith_filename (E : Env) (resolved : string) (options : Obj) :
  prop (getConfigWith E {[ "filename" := VStr resolved ]} options) "filename"
  = VStr resolved.
Proof.
  unfold prop, getConfigWith, copyProps.
  by rewrite (lookup_union_Some_l _ _ _ (VStr resolved) (lookup_singleton_eq _ _)).
Qed.

Lemma getConfigWith_inherits (E : Env) (resolved : string) (options : Obj)
    (k : string) (v : Value) :
  k ≠ "filename" → options !! k = Some v →
  prop (getConfigWith E {[ "filename" := VStr resolved ]} options) k = v.
Proof.
  intros Hne Hk. unfold prop, getConfigWith, copyProps.
  rewrite lookup_union_r by (by apply lookup_singleton_ne).
  by rewrite (lookup_union_Some_l _ _ _ _ Hk).
Qed.

(** [includeFile] throws the path-resolution error before anything else
    happens; when it returns, the configuration it returns has the resolved
    path of the included file as its filename and keeps every other option
    of the parent. *)
Theorem includeFile_config (E : Env) (path : string) (options : Obj) (w : World) :
  (∀ e, getPath E path options = Throw e →
        FileHandlers.includeFile E path options w = (Throw e, w))
  ∧ (∀ fn cfg w',
       FileHandlers.includeFile E path options w = (Normal (fn, cfg), w') →
       ∃ resolved,
         getPath E path options = Normal resolved
         ∧ prop cfg "filename" = VStr resolved
         ∧ ∀ k v, k ≠ "filename" → options !! k = Some v → prop cfg k = v).
Proof.
  unfold FileHandlers.includeFile. unfold_M. split.
  - by intros e ->.
  - intros fn cfg w'. destruct (getPath E path options) as [resolved | e]; [| done].
    destruct (FileHandlers.handleCache E _ w) as [[fn0 | e] w0]; [| done].
    intros [= <- <- <-]. exists resolved. split; [done |]. split.
    + apply getConfigWith_filename.
    + intros k v. apply getConfigWith_inherits.
Qed.

Lemma includeFile_config_witness :
  getPath demoEnv "missing.eta" parent_options
  = Throw (EtaErr "Could not find the template 'missing.eta'")
  ∧ FileHandlers.includeFile demoEnv "missing.eta" parent_options emptyWorld
    = (Throw (EtaErr "Could not find the template 'missing.eta'"), emptyWorld)
  ∧ (∃ fn cfg w',
       FileHandlers.includeFile demoEnv "hi.eta" parent_options emptyWorld
       = (Normal (fn, cfg), w')
       ∧ prop cfg "filename" = VStr "/views/hi.eta"
       ∧ prop cfg "cache" = VBool true).
Proof.
  split; [reflexivity |]. split.
  - apply (proj1 (includeFile_config demoEnv "missing.eta" parent_options emptyWorld)).
    reflexivity.
  - destruct (FileHandlers.includeFile demoEnv "hi.eta" parent_options emptyWorld)
      as [[[fn cfg] | e] w'] eqn:Hrun; [| by vm_compute in Hrun].
    exists fn, cfg, w'. split; [reflexivity |].
    destruct (proj2 (includeFile_config demoEnv "hi.eta" parent_options emptyWorld)
                fn cfg w' Hrun) as (resolved & Hp & Hf & Hrest).
    split.
    + rewrite Hf. f_equal. vm_compute in Hp. by injection Hp as <-.
    + apply Hrest; [done | reflexivity].
Defined.

(** [includeFile] follows the parent's cache flag. With the parent's cache
    on, an included file that is registered under its resolved path comes
    from the cache without a read or a compilation; with the parent's cache
    off, a readable included file is read and compiled and the cache stays
    as it was. *)
Theorem includeFile_follows_parent_cache (E : Env) (path : string)
    (options : Obj) (w : World) (resolved : string) (flag : Value)
    (Hpath : getPath E path options = Normal resolved)
    (Hflag : options !! "cache" = Some flag) :
  let cfg := getConfigWith E {[ "filename" := VStr resolved ]} options in
  (∀ fn, truthy flag = true → templates w !! resolved = Some fn →
         FileHandlers.includeFile E path options w = (Normal (fn, cfg), w))
  ∧ (∀ src, truthy flag = false → readFile E resolved = Normal src →
            let w' := snd (FileHandlers.includeFile E path options w) in
            templates w' = templates w
            ∧ compiled w' = (compiled w ++ [(src, getConfig E cfg)])%list
            ∧ reads w' = (reads w ++ [resolved])%list).
Proof.
  intros cfg.
  assert (Hc : prop cfg "cache" = flag).
  { by apply getConfigWith_inherits. }
  assert (Hk : toKey (prop cfg "filename") = resolved).
  { unfold cfg. by rewrite getConfigWith_filename. }
  unfold FileHandlers.includeFile, lift. unfold mbind, M_bind, mret, M_ret.
  rewrite Hpath. fold cfg. split.
  - intros fn Ht Hreg.
    assert (Hct : truthy (prop cfg "cache") = true) by (by rewrite Hc).
    assert (Hreg' : templates w !! toKey (prop cfg "filename") = Some fn)
      by (by rewrite Hk).
    by rewrite (file_handleCache_hit E cfg w fn Hct Hreg').
  - intros src Hf Hread.
    assert (Hcf : truthy (prop cfg "cache") = false) by (by rewrite Hc).
    rewrite (file_handleCache_disabled E cfg w Hcf).
    rewrite loadFile_unfold, Hk, Hread. simpl.
    by destruct (compile E src (getConfig E cfg)).
Qed.

Lemma includeFile_follows_parent_cache_witness :
  getPath demoEnv "hi.eta" parent_options = Normal "/views/hi.eta"
  ∧ parent_options !! "cache" = Some (VBool true)
  ∧ fst (FileHandlers.includeFile demoEnv "hi.eta" parent_options
           (mkWorld {[ "/views/hi.eta" := Fn 2 ]} [] [] []))
    = Normal (Fn 2, getConfigWith demoEnv {[ "filename" := VStr "/views/hi.eta" ]}
                      parent_options)
  ∧ reads (snd (FileHandlers.includeFile demoEnv "hi.eta" parent_options
                  (mkWorld {[ "/views/hi.eta" := Fn 2 ]} [] [] []))) = [].
Proof.
  pose proof (proj1 (includeFile_follows_parent_cache demoEnv "hi.eta" parent_options
                       (mkWorld {[ "/views/hi.eta" := Fn 2 ]} [] [] [])
                       "/views/hi.eta" (VBool true) eq_refl eq_refl)
                (Fn 2) eq_refl eq_refl) as Hrun.
  split; [reflexivity |]. split; [reflexivity |]. split; by rewrite Hrun.
Defined.

Lemma settingsOf_with_async (data : Value) :
  settingsOf (VObj (<["async" := VBool true]> (ownProps data))) = settingsOf data.
Proof.
  unfold settingsOf. rewrite !ownProps_orEmpty. simpl.
  by rewrite prop_insert_ne.
Qed.

(** [renderFileAsync] does force asynchronous mode when it is given a
    configuration object ([null] included), and when the callback sits in
    the configuration position, there unless the view options of the data's
    settings set [async] themselves. *)
Theorem renderFileAsync_forces_async_given_config (E : Env) (filename : string)
    (data : Value) (cb : option CallbackFn) (w : World) :
  (∀ c, String.eqb (typeof (AVal c)) "object" = true →
        let forced := AVal (VObj (<["async" := VBool true]> (ownProps c))) in
        FileHandlers.renderFileAsync E filename data (AVal c) cb w
        = FileHandlers.renderFile E filename data forced cb w
        ∧ prop (effectiveConfig E data forced) "async" = VBool true)
  ∧ (∀ f, let data' := VObj (<["async" := VBool true]> (ownProps data)) in
          FileHandlers.renderFileAsync E filename data (AFun f) cb w
          = FileHandlers.renderFile E filename data' (AFun f) cb w
          ∧ (viewOptionsOf data !! "async" = None →
             prop (effectiveConfig E data' (AFun f)) "async" = VBool true)).
Proof.
  split.
  - intros c Hc forced. split.
    + unfold FileHandlers.renderFileAsync. rewrite Hc.
      by destruct c as [| | b | s | o].
    + unfold forced, effectiveConfig. simpl.
      apply getConfig_override, lookup_insert_eq.
  - intros f data'. split; [reflexivity |]. intros Hvo.
    rewrite (effectiveConfig_untouched_key E data' (AFun f) "async");
      [| done | | done | done].
    + apply getConfig_override. unfold data'. simpl. apply lookup_insert_eq.
    + unfold viewOptionsOf, data' in *. by rewrite settingsOf_with_async.
Qed.

Lemma renderFileAsync_forces_async_given_config_witness :
  String.eqb (typeof (AVal VNull)) "object" = true
  ∧ viewOptionsOf ada !! "async" = None
  ∧ fst (FileHandlers.renderFileAsync demoEnv "await.eta" ada (AVal VNull) None emptyWorld)
    = Normal (Promised (Resolved (VStr "Hi Ada")))
  ∧ prop (effectiveConfig demoEnv (VObj (<["async" := VBool true]> (ownProps ada)))
            (AFun 7)) "async" = VBool true.
Proof.
  destruct (renderFileAsync_forces_async_given_config demoEnv "await.eta" ada None
              emptyWorld) as [Hobj Hfun].
  split; [reflexivity |]. split; [reflexivity |]. split.
  - rewrite (proj1 (Hobj VNull eq_refl)). vm_compute. reflexivity.
  - apply (proj2 (Hfun 7)). reflexivity.
Defined.
